(** * Bendine (annuti): order, payment, inventory and reporting logic

    A shallow embedding of the business logic found in the React admin
    front end ([frontend/src/pages/POS.tsx], [MenuManagement.tsx], the
    inventory page, the menu slice and its types) and in the React
    Native waiter application ([mobile/src/screens/OrderScreen.js]).

    Numbers.  Every JavaScript [number] of the source is modelled by an
    exact rational of type [Q]; the comparison of two numbers is [Qeq]
    ([==]), and the rate [0.15] is the rational 15/100.  Rounding of IEEE
    doubles is therefore outside the model.  Where a rounded result
    decides what a page shows (the threshold of a status, a difference
    that is printed), the operation is a parameter of the definition,
    taken as the language computes it.

    State.  A React component is modelled by a record of its [useState]
    cells; a handler is a function from the record to the record it
    leaves behind after its setters have run. *)

From Stdlib Require Import QArith Qabs Qround ZArith List String Ascii Bool Lia Lqa.
From Stdlib Require Import DecimalString Permutation DecimalN DecimalPos.
Import ListNotations.

Local Open Scope Q_scope.

(** ** JavaScript helpers shared by the pages *)

Module JS.

(** [Array.prototype.find]: the first element satisfying the predicate. *)
Definition find {A : Type} (p : A -> bool) (l : list A) : option A :=
  List.find p l.

(** [Array.prototype.reduce] with an initial value: a left fold. *)
Definition reduce {A B : Type} (f : B -> A -> B) (init : B) (l : list A) : B :=
  fold_left f l init.

(** Truthiness of a string: only the empty string is falsy. *)
Definition truthy (s : string) : bool :=
  match s with
  | EmptyString => false
  | String _ _ => true
  end.

(** [a || b] on strings. *)
Definition or_else (a b : string) : string :=
  if truthy a then a else b.

(** [x < y] and [x > y] on numbers, as booleans. *)
Definition ltb (x y : Q) : bool := negb (Qle_bool y x).
Definition gtb (x y : Q) : bool := ltb y x.

(** Decimal text of an integer, as [Number.prototype.toString] prints an
    integral number. *)
Definition Z_toString (z : Z) : string :=
  NilZero.string_of_int (Z.to_int z).










End JS.

(** ** The point-of-sale page ([frontend/src/pages/POS.tsx]) *)

Module POS.

Inductive TableStatus := available | occupied | reserved | dirty.

(** [table_id_of] and [table_name] are the fields [id] and [name]. *)
Record TableInfo := mkTableInfo {
  table_id_of : string;
  table_name : string;
  capacity : Q;
  table_status : TableStatus;
  section_id : string
}.

(** [Order['status']] *)
Inductive OrderStatus := o_new | o_preparing | o_ready | o_served | o_paid.

Inductive OrderType := dine_in | takeout | delivery.

(** [Order['payment_status']] *)
Inductive PaymentStatus := pending | partial | paid.

(** [order_id_of] is the field [id]; [order_subtotal], [order_tax] and
    [order_total] are [subtotal], [tax] and [total]; the optional customer
    fields are not read by the page. *)
Record Order := mkOrder {
  order_id_of : string;
  table_id : string;
  status : OrderStatus;
  order_type : OrderType;
  order_subtotal : Q;
  order_tax : Q;
  discount : Q;
  order_total : Q;
  payment_status : PaymentStatus;
  created_at : string;
  updated_at : string;
  user_id : string
}.

(** [OrderItem['status']] *)
Inductive ItemStatus := i_new | i_preparing | i_ready | i_served.

Record OrderItem := mkOrderItem {
  id : string;
  order_id : string;
  menu_item_id : string;
  menu_item_name : string;
  quantity : Q;
  unit_price : Q;
  notes : string;
  item_status : ItemStatus
}.

(** An element of the [menuItems] cell; [entry_id] and [entry_name] are
    its [id] and [name]. *)
Record MenuEntry := mkMenuEntry {
  entry_id : string;
  entry_name : string;
  price : Q;
  category : string
}.

(** The sample menu held by [useState] (it has no setter). *)
Definition menuItems : list MenuEntry :=
  [ mkMenuEntry "1" "Beef Burger" 250 "Burgers";
    mkMenuEntry "2" "Chicken Burger" 220 "Burgers";
    mkMenuEntry "3" "Coke 330ml" 40 "Drinks";
    mkMenuEntry "4" "Fanta 330ml" 40 "Drinks";
    mkMenuEntry "5" "French Fries" 80 "Sides";
    mkMenuEntry "6" "Onion Rings" 90 "Sides" ]%string.

(** The [newOrderItem] cell: [menu_item_id], [quantity] and [notes]. *)
Record NewOrderItem := mkNewOrderItem {
  form_menu_item_id : string;
  form_quantity : Q;
  form_notes : string
}.

(** The [useState] cells of the component. *)
Record State := mkState {
  activeTab : Q;
  selectedTable : option TableInfo;
  openPaymentDialog : bool;
  currentOrder : option Order;
  orderItems : list OrderItem;
  newOrderItem : NewOrderItem
}.

Definition initialState : State :=
  mkState 0 None false None [] (mkNewOrderItem "" 1 "").

Definition handleTabChange (newValue : Q) (st : State) : State :=
  mkState newValue (selectedTable st) (openPaymentDialog st)
          (currentOrder st) (orderItems st) (newOrderItem st).

Definition handleTableSelect (table : TableInfo) (st : State) : State :=
  mkState (activeTab st) (Some table) (openPaymentDialog st)
          None [] (newOrderItem st).

(** [handleAddItem]; [now] is the value of [Date.now()]. *)
Definition handleAddItem (now : Z) (st : State) : State :=
  let form := newOrderItem st in
  if negb (JS.truthy (form_menu_item_id form)) then st
  else
    match JS.find (fun item => String.eqb (entry_id item) (form_menu_item_id form))
                  menuItems with
    | None => st
    | Some menuItem =>
        let newItem :=
          mkOrderItem (JS.Z_toString now)
                      (match currentOrder st with
                       | Some o => JS.or_else (order_id_of o) "new"
                       | None => "new"%string
                       end)
                      (form_menu_item_id form)
                      (entry_name menuItem)
                      (form_quantity form)
                      (price menuItem)
                      (form_notes form)
                      i_new in
        mkState (activeTab st) (selectedTable st) (openPaymentDialog st)
                (currentOrder st)
                (orderItems st ++ [newItem])
                (mkNewOrderItem "" 1 "")
    end.

Definition handleRemoveItem (itemId : string) (st : State) : State :=
  mkState (activeTab st) (selectedTable st) (openPaymentDialog st)
          (currentOrder st)
          (filter (fun item => negb (String.eqb (id item) itemId)) (orderItems st))
          (newOrderItem st).

Record Totals := mkTotals {
  subtotal : Q;
  tax : Q;
  total : Q
}.

(** [calculateTotals], over the [orderItems] cell it closes over. *)
Definition calculateTotals (orderItems : list OrderItem) : Totals :=
  let subtotal :=
    JS.reduce (fun sum item => sum + unit_price item * quantity item) 0 orderItems in
  let tax := subtotal * (15 # 100) in
  let total := subtotal + tax in
  mkTotals subtotal tax total.

Definition handleOpenPayment (st : State) : State :=
  mkState (activeTab st) (selectedTable st) true
          (currentOrder st) (orderItems st) (newOrderItem st).

(** [handlePayment]: a console message, then the dialog is closed. *)
Definition handlePayment (st : State) : string * State :=
  ("Processing payment..."%string,
   mkState (activeTab st) (selectedTable st) false
           (currentOrder st) (orderItems st) (newOrderItem st)).

(** The setter of the [newOrderItem] cell. *)
Definition setNewOrderItem (form : NewOrderItem) (st : State) : State :=
  mkState (activeTab st) (selectedTable st) (openPaymentDialog st)
          (currentOrder st) (orderItems st) form.

(** The Menu Item select of the Add Item form:
    [setNewOrderItem({...newOrderItem, menu_item_id: e.target.value})]. *)
Definition selectMenuItem (value : string) (st : State) : State :=
  setNewOrderItem (mkNewOrderItem value (form_quantity (newOrderItem st))
                                  (form_notes (newOrderItem st))) st.

(** The Quantity field:
    [setNewOrderItem({...newOrderItem, quantity: parseInt(e.target.value) || 1})];
    [parsed] is what [parseInt] gives for the text, [None] standing for
    [NaN].  Zero and [NaN] are falsy. *)
Definition changeQuantity (parsed : option Z) (st : State) : State :=
  let quantity :=
    match parsed with
    | Some z => if Z.eqb z 0 then 1 else inject_Z z
    | None => 1
    end in
  setNewOrderItem (mkNewOrderItem (form_menu_item_id (newOrderItem st)) quantity
                                  (form_notes (newOrderItem st))) st.

(** The Add button of a menu card:
    [setNewOrderItem({...newOrderItem, menu_item_id: item.id}); handleAddItem();].
    Both calls run in the same render, so [handleAddItem] reads the
    [newOrderItem] cell as it was before the click; the setters take effect
    together afterwards, the later write to a cell replacing the earlier.
    When [handleAddItem] returns at once the selection just made stands,
    otherwise its own reset of the form replaces it. *)
Definition cardAdd (now : Z) (item : MenuEntry) (st : State) : State :=
  let form := newOrderItem st in
  let selected :=
    setNewOrderItem (mkNewOrderItem (entry_id item) (form_quantity form)
                                    (form_notes form)) st in
  if negb (JS.truthy (form_menu_item_id form)) then selected
  else
    match JS.find (fun item => String.eqb (entry_id item) (form_menu_item_id form))
                  menuItems with
    | None => selected
    | Some _ => handleAddItem now st
    end.

(** [onClose] and the Cancel button of the payment dialog. *)
Definition closePaymentDialog (st : State) : State :=
  mkState (activeTab st) (selectedTable st) false
          (currentOrder st) (orderItems st) (newOrderItem st).

(** Everything the page reacts to. *)
Inductive Event :=
| TabChange (newValue : Q)
| TableSelect (table : TableInfo)
| SelectMenuItem (value : string)
| ChangeQuantity (parsed : option Z)
| AddItem (now : Z)
| CardAdd (now : Z) (item : MenuEntry)
| RemoveItem (itemId : string)
| OpenPayment
| ClosePayment
| Payment.

Definition step (e : Event) (st : State) : State :=
  match e with
  | TabChange v => handleTabChange v st
  | TableSelect table => handleTableSelect table st
  | SelectMenuItem value => selectMenuItem value st
  | ChangeQuantity parsed => changeQuantity parsed st
  | AddItem now => handleAddItem now st
  | CardAdd now item => cardAdd now item st
  | RemoveItem itemId => handleRemoveItem itemId st
  | OpenPayment => handleOpenPayment st
  | ClosePayment => closePaymentDialog st
  | Payment => snd (handlePayment st)
  end.

(** The page after a sequence of events, the first event first. *)
Definition run (es : list Event) (st : State) : State :=
  fold_left (fun s e => step e s) es st.

(** The menu entry an id designates. *)
Definition menuEntry (menu_item_id : string) : option MenuEntry :=
  JS.find (fun item => String.eqb (entry_id item) menu_item_id) menuItems.

End POS.

(** ** The waiter's order screen ([mobile/src/screens/OrderScreen.js]) *)

Module OrderScreen.

Record MenuItem := mkMenuItem {
  item_id : string;
  item_name : string;
  item_price : Q;
  item_category : string
}.

Definition menuItems : list MenuItem :=
  [ mkMenuItem "1" "Beef Burger" 250 "Burgers";
    mkMenuItem "2" "Chicken Burger" 220 "Burgers";
    mkMenuItem "3" "Coke 330ml" 40 "Drinks";
    mkMenuItem "4" "Fanta 330ml" 40 "Drinks";
    mkMenuItem "5" "French Fries" 80 "Sides";
    mkMenuItem "6" "Onion Rings" 90 "Sides" ]%string.

(** An element of the [orderItems] cell: a menu item spread together with
    a [quantity]. *)
Record OrderItem := mkOrderItem {
  id : string;
  name : string;
  price : Q;
  category : string;
  quantity : Q
}.

Definition with_quantity (orderItem : OrderItem) (q : Q) : OrderItem :=
  mkOrderItem (id orderItem) (name orderItem) (price orderItem)
              (category orderItem) q.

(** The menu item carried by an order line, as [renderOrderItem] hands it
    to [addToOrder]; the line's own [quantity] is overwritten by the
    spread [{ ...item, quantity: 1 }] and never read. *)
Definition as_item (orderItem : OrderItem) : MenuItem :=
  mkMenuItem (id orderItem) (name orderItem) (price orderItem) (category orderItem).

Definition addToOrder (item : MenuItem) (orderItems : list OrderItem) : list OrderItem :=
  let existingItem :=
    JS.find (fun orderItem => String.eqb (id orderItem) (item_id item)) orderItems in
  match existingItem with
  | Some _ =>
      map (fun orderItem =>
             if String.eqb (id orderItem) (item_id item)
             then with_quantity orderItem (quantity orderItem + 1)
             else orderItem)
          orderItems
  | None =>
      orderItems ++
      [mkOrderItem (item_id item) (item_name item) (item_price item)
                   (item_category item) 1]
  end.

Definition removeFromOrder (itemId : string) (orderItems : list OrderItem) : list OrderItem :=
  let existingItem :=
    JS.find (fun item => String.eqb (id item) itemId) orderItems in
  if match existingItem with
     | Some e => JS.gtb (quantity e) 1
     | None => false
     end
  then
    map (fun item =>
           if String.eqb (id item) itemId
           then with_quantity item (quantity item - 1)
           else item)
        orderItems
  else
    filter (fun item => negb (String.eqb (id item) itemId)) orderItems.

Definition calculateTotal (orderItems : list OrderItem) : Q :=
  JS.reduce (fun total item => total + price item * quantity item) 0 orderItems.

(** The two presses that change the order. *)
Inductive Press :=
| PressAdd (item : MenuItem)
| PressRemove (itemId : string).

Definition press (p : Press) (orderItems : list OrderItem) : list OrderItem :=
  match p with
  | PressAdd item => addToOrder item orderItems
  | PressRemove itemId => removeFromOrder itemId orderItems
  end.

(** The order after a sequence of presses, the first press first. *)
Definition presses (ps : list Press) (orderItems : list OrderItem) : list OrderItem :=
  fold_left (fun st p => press p st) ps orderItems.

(** The quantity shown for a menu item id, when it has a line. *)
Definition quantityOf (itemId : string) (orderItems : list OrderItem) : option Q :=
  option_map quantity (JS.find (fun item => String.eqb (id item) itemId) orderItems).

(** The values of [new Set(values)] in the order the spread lists them:
    each value once, at the place of its first occurrence. *)
Fixpoint addAll (seen values : list string) : list string :=
  match values with
  | [] => seen
  | v :: r => addAll (if existsb (String.eqb v) seen then seen else seen ++ [v]) r
  end.

Definition setOf (values : list string) : list string := addAll [] values.

(** [['All', ...new Set(menuItems.map(item => item.category))]], for a
    menu. *)
Definition categoriesOf (menu : list MenuItem) : list string :=
  "All"%string :: setOf (map item_category menu).

(** The menu items listed under the selected category, for a menu. *)
Definition filteredOf (menu : list MenuItem) (selectedCategory : string) : list MenuItem :=
  if String.eqb selectedCategory "All" then menu
  else filter (fun item => String.eqb (item_category item) selectedCategory) menu.

Definition categories : list string := categoriesOf menuItems.

Definition filteredMenuItems (selectedCategory : string) : list MenuItem :=
  filteredOf menuItems selectedCategory.

End OrderScreen.

(** ** The inventory page (the [Inventory] component) *)

Module Inventory.

Record InventoryItem := mkInventoryItem {
  id : string;
  name : string;
  category : string;
  current_stock : Q;
  unit : string;
  unit_cost : Q;
  min_stock : Q;
  supplier : string;
  category_type : string
}.

(** [InventoryTransaction['type']] *)
Inductive TransactionType := receiving | issuing | adjustment.

Record InventoryTransaction := mkInventoryTransaction {
  tx_id : string;
  tx_type : TransactionType;
  reference_id : string;
  date : string;
  tx_notes : string;
  user_id : string
}.

Record Unit := mkUnit {
  unit_id : string;
  unit_name : string;
  abbreviation : string
}.

Inductive DialogMode := add | edit.

(** The sample stock held by [useState]. *)
Definition sampleInventoryItems : list InventoryItem :=
  [ mkInventoryItem "1" "Beef" "Raw Materials" (125 # 10) "kg" 620 5
                    "Fresh Meat Co." "Meat";
    mkInventoryItem "2" "Buns" "Raw Materials" 240 "pcs" (52 # 10) 100
                    "Bun Supply Ltd." "Bakery";
    mkInventoryItem "3" "Lettuce" "Raw Materials" (152 # 10) "kg" 80 3
                    "Fresh Vegetables Inc." "Vegetables" ]%string.

Definition sampleUnits : list Unit :=
  [ mkUnit "1" "kilogram" "kg";
    mkUnit "2" "gram" "g";
    mkUnit "3" "piece" "pcs";
    mkUnit "4" "liter" "L";
    mkUnit "5" "milliliter" "ml" ]%string.

(** The fields of the add/edit dialog; the numeric ones are text. *)
Record Form := mkForm {
  f_name : string;
  f_category : string;
  f_currentStock : string;
  f_unit : string;
  f_unitCost : string;
  f_minStock : string;
  f_supplier : string;
  f_categoryType : string
}.

Definition emptyForm : Form := mkForm "" "" "" "" "" "" "" "".

(** The [useState] cells of the component.  [inventoryItems] and [units]
    are cells too, although the component keeps no setter for them. *)
Record State := mkState {
  activeTab : Q;
  openDialog : bool;
  dialogMode : DialogMode;
  currentItem : option InventoryItem;
  form : Form;
  inventoryItems : list InventoryItem;
  units : list Unit
}.

Definition initialState : State :=
  mkState 0 false add None emptyForm sampleInventoryItems sampleUnits.

(** What [handleSubmit] prints on the console. *)
Record Logged := mkLogged {
  l_name : string;
  l_category : string;
  l_current_stock : option Q;
  l_unit : string;
  l_unit_cost : option Q;
  l_min_stock : option Q;
  l_supplier : string;
  l_category_type : string
}.

Section Builtins.

(** [parseFloat] ([None] stands for [NaN]) and [Number.prototype.toString]
    are functions of the language, taken as they come. *)
Variable parseFloat : string -> option Q.
Variable Number_toString : Q -> string.

Definition handleTabChange (newValue : Q) (st : State) : State :=
  mkState newValue (openDialog st) (dialogMode st) (currentItem st)
          (form st) (inventoryItems st) (units st).

Definition handleOpenDialog (mode : DialogMode) (item : option InventoryItem)
    (st : State) : State :=
  match mode, item with
  | edit, Some item =>
      mkState (activeTab st) true mode (Some item)
              (mkForm (name item) (category item)
                      (Number_toString (current_stock item))
                      (unit item)
                      (Number_toString (unit_cost item))
                      (Number_toString (min_stock item))
                      (supplier item) (category_type item))
              (inventoryItems st) (units st)
  | _, _ =>
      mkState (activeTab st) true mode None emptyForm
              (inventoryItems st) (units st)
  end.

Definition handleCloseDialog (st : State) : State :=
  mkState (activeTab st) false (dialogMode st) (currentItem st)
          (form st) (inventoryItems st) (units st).

(** [handleSubmit]: the form is printed, then the dialog is closed. *)
Definition handleSubmit (st : State) : Logged * State :=
  let f := form st in
  (mkLogged (f_name f) (f_category f) (parseFloat (f_currentStock f))
            (f_unit f) (parseFloat (f_unitCost f)) (parseFloat (f_minStock f))
            (f_supplier f) (f_categoryType f),
   handleCloseDialog st).

(** The [onChange] setters of the dialog's fields. *)
Definition setForm (f : Form) (st : State) : State :=
  mkState (activeTab st) (openDialog st) (dialogMode st) (currentItem st)
          f (inventoryItems st) (units st).

(** Everything the page reacts to. *)
Inductive Event :=
| TabChange (newValue : Q)
| OpenDialog (mode : DialogMode) (item : option InventoryItem)
| CloseDialog
| Submit
| Edit (f : Form).

Definition step (e : Event) (st : State) : State :=
  match e with
  | TabChange v => handleTabChange v st
  | OpenDialog mode item => handleOpenDialog mode item st
  | CloseDialog => handleCloseDialog st
  | Submit => snd (handleSubmit st)
  | Edit f => setForm f st
  end.

Definition run (es : list Event) (st : State) : State :=
  fold_left (fun s e => step e s) es st.

End Builtins.

(** The rows of the Low Stock tab. *)
Definition lowStock (inventoryItems : list InventoryItem) : list InventoryItem :=
  filter (fun item => Qle_bool (current_stock item) (min_stock item)) inventoryItems.

(** The status cell of the Inventory Items tab.  [times] is the
    multiplication of the language, whose result for [min_stock * 1.5] is
    the double nearest to the product. *)
Inductive StockStatus := LowStock | Warning | OK.

Definition stockStatus (times : Q -> Q -> Q) (item : InventoryItem) : StockStatus :=
  if Qle_bool (current_stock item) (min_stock item) then LowStock
  else if Qle_bool (current_stock item) (times (min_stock item) (15 # 10)) then Warning
  else OK.

(** The row is drawn on a red background under the same test. *)
Definition rowBackground (item : InventoryItem) : string :=
  if Qle_bool (current_stock item) (min_stock item) then "#ffebee" else "inherit".

(** The stock recorded for an ingredient id. *)
Definition stockOf (itemId : string) (inventoryItems : list InventoryItem) : option Q :=
  option_map current_stock
    (JS.find (fun item => String.eqb (id item) itemId) inventoryItems).

(** A reading of [parseFloat] on plain decimal digits, for the examples. *)
Fixpoint digitsValue (acc : Z) (s : string) : option Z :=
  match s with
  | EmptyString => Some acc
  | String c r =>
      let n := nat_of_ascii c in
      if andb (Nat.leb 48 n) (Nat.leb n 57)
      then digitsValue (10 * acc + Z.of_nat (n - 48)) r
      else None
  end.

Definition parseDigits (s : string) : option Q :=
  match s with
  | EmptyString => None
  | _ => option_map inject_Z (digitsValue 0 s)
  end.

(** A reading of [Number.prototype.toString] on whole numbers, for the
    examples. *)
Definition printWhole (q : Q) : string := JS.Z_toString (Qnum q).

(** The dialog while the Beef row is edited and 20 is typed as its stock. *)
Definition editingBeef : State :=
  mkState 0 true edit
          (Some (mkInventoryItem "1" "Beef" "Raw Materials" (125 # 10) "kg" 620 5
                                 "Fresh Meat Co." "Meat"))
          (mkForm "Beef" "Raw Materials" "20" "kg" "620" "5" "Fresh Meat Co." "Meat")
          sampleInventoryItems sampleUnits.

End Inventory.

(** ** The menu slice and the menu page
    ([features/menu/menuSlice], [frontend/src/pages/MenuManagement.tsx]) *)

Module Menu.

(** [MenuItem], as [types/menu] declares it (the declaration follows the
    store in [frontend/src/App.tsx]).  An optional field that is absent
    is [None]. *)
Record MenuItem := mkMenuItem {
  id : string;
  name : string;
  description : string;
  price : Q;
  cost : Q;
  category_id : string;
  category_name : string;
  is_available : bool;
  image_url : option string;
  prep_time : option Q;
  is_featured : option bool
}.

(** [MenuCategory], as [types/menu] declares it; [cat_id], [cat_name] and
    [cat_description] are the fields [id], [name] and [description]. *)
Record MenuCategory := mkMenuCategory {
  cat_id : string;
  cat_name : string;
  cat_description : string;
  display_order : Q;
  is_active : bool
}.

Record MenuState := mkMenuState {
  categories : list MenuCategory;
  items : list MenuItem;
  loading : bool;
  error : option string
}.

Definition initialState : MenuState := mkMenuState [] [] false None.

(** The actions the slice reduces. *)
Inductive Action :=
| clearError
| fetchCategories_pending
| fetchCategories_fulfilled (payload : list MenuCategory)
| fetchCategories_rejected (payload : string)
| fetchMenuItems_pending
| fetchMenuItems_fulfilled (payload : list MenuItem)
| fetchMenuItems_rejected (payload : string)
| addMenuItem_fulfilled (payload : MenuItem)
| addMenuItem_rejected (payload : string)
| updateMenuItem_fulfilled (payload : MenuItem)
| updateMenuItem_rejected (payload : string)
| deleteMenuItem_fulfilled (payload : string)
| deleteMenuItem_rejected (payload : string).

(** [state.items[index] = payload] at the first index whose id is the
    payload's, when there is one. *)
Fixpoint replaceFirst (payload : MenuItem) (l : list MenuItem) : list MenuItem :=
  match l with
  | [] => []
  | item :: r =>
      if String.eqb (id item) (id payload) then payload :: r
      else item :: replaceFirst payload r
  end.

Definition reducer (state : MenuState) (a : Action) : MenuState :=
  match a with
  | clearError =>
      mkMenuState (categories state) (items state) (loading state) None
  | fetchCategories_pending =>
      mkMenuState (categories state) (items state) true None
  | fetchCategories_fulfilled payload =>
      mkMenuState payload (items state) false (error state)
  | fetchCategories_rejected payload =>
      mkMenuState (categories state) (items state) false (Some payload)
  | fetchMenuItems_pending =>
      mkMenuState (categories state) (items state) true None
  | fetchMenuItems_fulfilled payload =>
      mkMenuState (categories state) payload false (error state)
  | fetchMenuItems_rejected payload =>
      mkMenuState (categories state) (items state) false (Some payload)
  | addMenuItem_fulfilled payload =>
      mkMenuState (categories state) (items state ++ [payload])
                  (loading state) (error state)
  | addMenuItem_rejected payload =>
      mkMenuState (categories state) (items state) (loading state) (Some payload)
  | updateMenuItem_fulfilled payload =>
      mkMenuState (categories state) (replaceFirst payload (items state))
                  (loading state) (error state)
  | updateMenuItem_rejected payload =>
      mkMenuState (categories state) (items state) (loading state) (Some payload)
  | deleteMenuItem_fulfilled payload =>
      mkMenuState (categories state)
                  (filter (fun item => negb (String.eqb (id item) payload))
                          (items state))
                  (loading state) (error state)
  | deleteMenuItem_rejected payload =>
      mkMenuState (categories state) (items state) (loading state) (Some payload)
  end.



(** The item the table shows for an id: the first of that id. *)
Definition itemOf (itemId : string) (items : list MenuItem) : option MenuItem :=
  JS.find (fun item => String.eqb (id item) itemId) items.

End Menu.

(** ** The thunks of the menu slice ([features/menu/menuSlice]) *)

Module MenuThunks.

Import Menu.

(** What a save sends: the fields of [Omit<MenuItem, 'id'>] or of
    [Partial<MenuItem>].  A number is [None] when it is [NaN];
    [category_name] and [prep_time] are [None] when the field is absent or
    [undefined]. *)
Record ItemData := mkItemData {
  d_name : string;
  d_description : string;
  d_price : option Q;
  d_cost : option Q;
  d_category_id : string;
  d_category_name : option string;
  d_is_available : bool;
  d_prep_time : option (option Q)
}.

Inductive Method := GET | POST | PUT | DELETE.

(** A request as [axios] sends it: the path after [REACT_APP_API_URL], the
    [Authorization] header and the body. *)
Record Request := mkRequest {
  method : Method;
  path : string;
  authorization : string;
  body : option ItemData
}.

(** What comes back: the data of the response, or an error whose
    [response.data.detail] may be missing. *)
Inductive Result (A : Type) :=
| Success (data : A)
| Failure (detail : option string).

Arguments Success {A} data.
Arguments Failure {A} detail.

(** The back end, as far as the slice calls it. *)
Record Server := mkServer {
  getCategories : Request -> Result (list MenuCategory);
  getItems : Request -> Result (list MenuItem);
  postItem : Request -> Result MenuItem;
  putItem : Request -> Result MenuItem;
  deleteItem : Request -> Result unit
}.

(** [error.response?.data?.detail || fallback] *)
Definition detail_or (detail : option string) (fallback : string) : string :=
  match detail with
  | Some d => JS.or_else d fallback
  | None => fallback
  end.

(** The body every thunk of the slice shares.  [token] is what
    [localStorage.getItem('token')] gives.  Without a token the thunk
    throws before any request; the error it throws has no response, so the
    [catch] rejects with the fallback text. *)
Definition guarded {A : Type} (token : option string) (fallback : string)
    (request : string -> Request) (call : Request -> Result A)
    (fulfilled : A -> Action) (rejected : string -> Action)
    : list Request * Action :=
  match token with
  | Some t =>
      if JS.truthy t then
        let r := request (("Bearer " ++ t)%string) in
        ([r],
         match call r with
         | Success data => fulfilled data
         | Failure detail => rejected (detail_or detail fallback)
         end)
      else ([], rejected fallback)
  | None => ([], rejected fallback)
  end.

Definition fetchCategories (token : option string) (server : Server)
    : list Request * Action :=
  guarded token "Failed to fetch categories"
          (fun auth => mkRequest GET "/api/v1/menu/categories" auth None)
          (getCategories server)
          fetchCategories_fulfilled fetchCategories_rejected.

Definition fetchMenuItems (token : option string) (server : Server)
    : list Request * Action :=
  guarded token "Failed to fetch menu items"
          (fun auth => mkRequest GET "/api/v1/menu/items" auth None)
          (getItems server)
          fetchMenuItems_fulfilled fetchMenuItems_rejected.

Definition addMenuItem (token : option string) (server : Server)
    (itemData : ItemData) : list Request * Action :=
  guarded token "Failed to add menu item"
          (fun auth => mkRequest POST "/api/v1/menu/items" auth (Some itemData))
          (postItem server)
          addMenuItem_fulfilled addMenuItem_rejected.

Definition updateMenuItem (token : option string) (server : Server)
    (id : string) (itemData : ItemData) : list Request * Action :=
  guarded token "Failed to update menu item"
          (fun auth => mkRequest PUT ("/api/v1/menu/items/" ++ id) auth (Some itemData))
          (putItem server)
          updateMenuItem_fulfilled updateMenuItem_rejected.

Definition deleteMenuItem (token : option string) (server : Server)
    (itemId : string) : list Request * Action :=
  guarded token "Failed to delete menu item"
          (fun auth => mkRequest DELETE ("/api/v1/menu/items/" ++ itemId) auth None)
          (deleteItem server)
          (fun _ => deleteMenuItem_fulfilled itemId) deleteMenuItem_rejected.

(** Whether [unwrap()] throws on the action a thunk ends with. *)
Definition isRejected (a : Action) : bool :=
  match a with
  | fetchCategories_rejected _ | fetchMenuItems_rejected _
  | addMenuItem_rejected _ | updateMenuItem_rejected _
  | deleteMenuItem_rejected _ => true
  | _ => false
  end.

Definition isFulfilled (a : Action) : bool :=
  match a with
  | fetchCategories_fulfilled _ | fetchMenuItems_fulfilled _
  | addMenuItem_fulfilled _ | updateMenuItem_fulfilled _
  | deleteMenuItem_fulfilled _ => true
  | _ => false
  end.

(** The fulfilled saves: add, update and delete. *)
Definition isSave (a : Action) : bool :=
  match a with
  | addMenuItem_fulfilled _ | updateMenuItem_fulfilled _
  | deleteMenuItem_fulfilled _ => true
  | _ => false
  end.

(** The message a rejection carries. *)
Definition rejectionOf (a : Action) : option string :=
  match a with
  | fetchCategories_rejected m | fetchMenuItems_rejected m
  | addMenuItem_rejected m | updateMenuItem_rejected m
  | deleteMenuItem_rejected m => Some m
  | _ => None
  end.

(** The five thunks run against one back end, in the order the slice
    declares them. *)
Definition allThunks (token : option string) (server : Server)
    (itemData : ItemData) (itemId : string) : list (list Request * Action) :=
  [ fetchCategories token server;
    fetchMenuItems token server;
    addMenuItem token server itemData;
    updateMenuItem token server itemId itemData;
    deleteMenuItem token server itemId ].

(** Whether [localStorage] holds a token the thunks accept. *)
Definition usable (token : option string) : bool :=
  match token with
  | Some t => JS.truthy t
  | None => false
  end.

(** What holds of a thunk whatever the back end answers: at most one
    request, none without a usable token, the token as a bearer, and no
    empty message. *)
Definition well_behaved (token : option string) (out : list Request * Action) : Prop :=
  (List.length (fst out) <= 1)%nat
  /\ (usable token = false -> fst out = [] /\ isRejected (snd out) = true)
  /\ (forall t, token = Some t -> JS.truthy t = true ->
                exists r, fst out = [r] /\ authorization r = ("Bearer " ++ t)%string)
  /\ (forall m, rejectionOf (snd out) = Some m -> JS.truthy m = true).

(** The action an answer of the back end ends a thunk with. *)
Definition report {A : Type} (answer : Result A) (fulfilled : A -> Action)
    (rejected : string -> Action) (fallback : string) : Action :=
  match answer with
  | Success data => fulfilled data
  | Failure (Some d) => rejected (if JS.truthy d then d else fallback)
  | Failure None => rejected fallback
  end.

End MenuThunks.

(** ** The menu page ([frontend/src/pages/MenuManagement.tsx]) *)

Module MenuPage.

Import Menu MenuThunks.

Inductive DialogMode := add | edit.

(** The fields of the dialog. *)
Record Form := mkForm {
  f_name : string;
  f_description : string;
  f_price : string;
  f_cost : string;
  f_categoryId : string;
  f_isAvailable : bool;
  f_prepTime : string
}.

Definition emptyForm : Form := mkForm "" "" "" "" "" true "".

(** The [useState] cells of the component. *)
Record State := mkState {
  activeTab : Q;
  openDialog : bool;
  dialogMode : DialogMode;
  currentItem : option MenuItem;
  form : Form
}.

Definition initialState : State := mkState 0 false add None emptyForm.

Section Builtins.

(** [parseFloat] and [parseInt] ([None] stands for [NaN]) and
    [Number.prototype.toString] are functions of the language, taken as
    they come. *)
Variable parseFloat : string -> option Q.
Variable parseInt : string -> option Q.
Variable Number_toString : Q -> string.

Definition handleTabChange (newValue : Q) (st : State) : State :=
  mkState newValue (openDialog st) (dialogMode st) (currentItem st) (form st).

Definition handleOpenDialog (mode : DialogMode) (item : option MenuItem)
    (st : State) : State :=
  match mode, item with
  | edit, Some item =>
      mkState (activeTab st) true mode (Some item)
              (mkForm (name item) (description item)
                      (Number_toString (price item))
                      (Number_toString (cost item))
                      (category_id item) (is_available item)
                      (match prep_time item with
                       | Some t => JS.or_else (Number_toString t) ""
                       | None => ""%string
                       end))
  | _, _ => mkState (activeTab st) true mode None emptyForm
  end.

Definition handleCloseDialog (st : State) : State :=
  mkState (activeTab st) false (dialogMode st) (currentItem st) (form st).

(** [prepTime ? parseInt(prepTime) : undefined] *)
Definition prepTimeOf (f : Form) : option (option Q) :=
  if JS.truthy (f_prepTime f) then Some (parseInt (f_prepTime f)) else None.

(** The [newItem] of the add branch. *)
Definition newItem (categories : list MenuCategory) (f : Form) : ItemData :=
  mkItemData (f_name f) (JS.or_else (f_description f) "")
             (parseFloat (f_price f)) (parseFloat (f_cost f))
             (f_categoryId f)
             (Some (match JS.find (fun cat => String.eqb (cat_id cat) (f_categoryId f))
                                  categories with
                    | Some cat => JS.or_else (cat_name cat) "Uncategorized"
                    | None => "Uncategorized"%string
                    end))
             (f_isAvailable f) (prepTimeOf f).

(** The [updatedItem] of the edit branch. *)
Definition updatedItem (f : Form) : ItemData :=
  mkItemData (f_name f) (JS.or_else (f_description f) "")
             (parseFloat (f_price f)) (parseFloat (f_cost f))
             (f_categoryId f) None (f_isAvailable f) (prepTimeOf f).

(** What [handleSubmit] leaves behind. *)
Record Outcome := mkOutcome {
  requests : list Request;
  console_error : bool;
  page : State;
  store : MenuState
}.

(** After a dispatched thunk: the store has reduced its last action;
    [unwrap()] throws when it was a rejection, which the [catch] reports,
    and the dialog is closed otherwise. *)
Definition afterDispatch (st : State) (state : MenuState)
    (r : list Request * Action) : Outcome :=
  if isRejected (snd r)
  then mkOutcome (fst r) true st (reducer state (snd r))
  else mkOutcome (fst r) false (handleCloseDialog st) (reducer state (snd r)).

(** [handleSubmit], with the token of [localStorage] and the back end. *)
Definition handleSubmit (token : option string) (server : Server)
    (st : State) (state : MenuState) : Outcome :=
  match dialogMode st with
  | add =>
      afterDispatch st state
        (addMenuItem token server (newItem (categories state) (form st)))
  | edit =>
      match currentItem st with
      | Some item =>
          afterDispatch st state
            (updateMenuItem token server (id item) (updatedItem (form st)))
      | None => mkOutcome [] false (handleCloseDialog st) state
      end
  end.

End Builtins.

End MenuPage.

(** ** Inventory counts *)

Module Counts.

(** [InventoryCountItem], as the inventory types declare it (the
    declaration follows the user types in [frontend/src/types/user.ts]). *)
Record InventoryCountItem := mkInventoryCountItem {
  id : string;
  count_id : string;
  ingredient_id : string;
  counted_quantity : Q;
  system_quantity : Q;
  variance : Q;
  notes : option string
}.

(** Modelled from the spec: what [recordCount] of section 4.2 leaves
    behind, the count items as stored and those of them it flags;
    [recordCount] is not among the sources. *)
Record Recorded := mkRecorded {
  stored : list InventoryCountItem;
  flagged : list InventoryCountItem
}.

(** Modelled from the spec: the stored form of a count item, with
    variance = counted - system (section 4.2); the function that stores a
    count is not among the sources. *)
Definition withVariance (item : InventoryCountItem) : InventoryCountItem :=
  mkInventoryCountItem (id item) (count_id item) (ingredient_id item)
                       (counted_quantity item) (system_quantity item)
                       (counted_quantity item - system_quantity item)
                       (notes item).

(** Modelled from the spec: the test of section 4.2 for a flag, the
    absolute variance exceeding the tolerance; no such test is among the
    sources. *)
Definition exceeds (tolerance : Q) (item : InventoryCountItem) : bool :=
  JS.ltb tolerance (Qabs (variance item)).

(** Modelled from the spec: [recordCount(countItems)] of section 4.2,
    which compares counted and system quantity, stores the variance and
    flags the items whose absolute variance exceeds a tolerance;
    [recordCount] is not among the sources. *)
Definition recordCount (tolerance : Q) (countItems : list InventoryCountItem) : Recorded :=
  let stored := map withVariance countItems in
  mkRecorded stored (filter (exceeds tolerance) stored).

End Counts.


(** ** The order aggregate of the reference design *)

Module OrderAggregate.

(** Modelled from the spec: the states of an order for [setStatus], which
    is not among the sources.  They are the five values of [Order.status]
    declared in [POS.tsx] and the cancelled terminal state of section 4.1. *)
Inductive Status := new | preparing | ready | served | paid | cancelled.

(** The declared [Order.status] values, read as states of the design. *)
Definition of_declared (s : POS.OrderStatus) : Status :=
  match s with
  | POS.o_new => new
  | POS.o_preparing => preparing
  | POS.o_ready => ready
  | POS.o_served => served
  | POS.o_paid => paid
  end.

Inductive Error := InvalidStateError | InvalidTransitionError.

(** Modelled from the spec: an order of the aggregate, with the status
    history that every status change appends to (section 4.1); the
    aggregate is not among the sources. *)
Record Order := mkOrder {
  status : Status;
  history : list Status
}.

(** Modelled from the spec: the terminal states, paid and cancelled. *)
Definition terminal (s : Status) : bool :=
  match s with
  | paid | cancelled => true
  | _ => false
  end.

(** Modelled from the spec: the allowed-transition table
    new -> preparing -> ready -> served -> paid. *)
Definition next (s : Status) : option Status :=
  match s with
  | new => Some preparing
  | preparing => Some ready
  | ready => Some served
  | served => Some paid
  | paid | cancelled => None
  end.

(** Modelled from the spec: the pairs of the allowed-transition table, as
    the sentence lists them. *)
Inductive adjacent : Status -> Status -> Prop :=
| adj_new : adjacent new preparing
| adj_preparing : adjacent preparing ready
| adj_ready : adjacent ready served
| adj_served : adjacent served paid.

(** Modelled from the spec: the states from which an order may still be
    cancelled, those before a terminal one. *)
Inductive earlier : Status -> Prop :=
| earlier_new : earlier new
| earlier_preparing : earlier preparing
| earlier_ready : earlier ready
| earlier_served : earlier served.

Definition status_eqb (a b : Status) : bool :=
  match a, b with
  | new, new | preparing, preparing | ready, ready
  | served, served | paid, paid | cancelled, cancelled => true
  | _, _ => false
  end.

(** Modelled from the spec: a transition is allowed when it follows the
    table, or moves an order that is not yet in a terminal state to
    cancelled. *)
Definition allowed (from to : Status) : bool :=
  match next from with
  | Some s => status_eqb s to
  | None => false
  end
  || (status_eqb to cancelled && negb (terminal from)).

(** Modelled from the spec: [setStatus(order, newStatus)], validated
    against the table; a refused call reports [InvalidTransitionError] and
    hands the order back as it was. *)
Definition setStatus (order : Order) (newStatus : Status) : option Error * Order :=
  if allowed (status order) newStatus
  then (None, mkOrder newStatus (history order ++ [newStatus]))
  else (Some InvalidTransitionError, order).

End OrderAggregate.

(** ** Sums as the specification writes them *)

Module Spec.

(** The sum of a list of numbers. *)
Fixpoint sum (l : list Q) : Q :=
  match l with
  | [] => 0
  | x :: r => x + sum r
  end.

(** The sum over the items of a list of what [f] gives for each. *)
Definition sum_over {A : Type} (f : A -> Q) (l : list A) : Q :=
  sum (map f l).

(** The stock an ingredient should hold after a transaction of the given
    type for the quantity [qty]: receiving adds it, issuing takes it away,
    an adjustment sets the stock to it. *)
Definition stock_after (type : Inventory.TransactionType) (stock qty : Q) : Q :=
  match type with
  | Inventory.receiving => stock + qty
  | Inventory.issuing => stock - qty
  | Inventory.adjustment => qty
  end.

End Spec.

(** ** Order lines of the waiter's screen: auxiliary notions *)

Module Lines.

Import OrderScreen.

(** A quantity that counts something: a positive whole number. *)
Definition is_count (q : Q) : Prop :=
  exists p : positive, q == inject_Z (Zpos p).

Definition well_formed (orderItems : list OrderItem) : Prop :=
  NoDup (map id orderItems) /\ Forall (fun line => is_count (quantity line)) orderItems.

(** The test [find] runs to look a line up by its id. *)
Definition has_id (itemId : string) (line : OrderItem) : bool :=
  String.eqb (id line) itemId.

(** Changing the quantity of the lines of one id keeps every id. *)
Definition requantify (itemId : string) (g : Q -> Q) (line : OrderItem) : OrderItem :=
  if String.eqb (id line) itemId then with_quantity line (g (quantity line)) else line.

(** The order without the lines of one id. *)
Definition without (itemId : string) (l : list OrderItem) : list OrderItem :=
  filter (fun item => negb (String.eqb (id item) itemId)) l.

End Lines.

(** ** The waiter's screen: auxiliary notions *)

Module ScreenNotions.

(** What a line adds to the total. *)
Definition linePrice (line : OrderScreen.OrderItem) : Q :=
  OrderScreen.price line * OrderScreen.quantity line.

End ScreenNotions.

(** ** The point-of-sale page: auxiliary notions *)

Module POSNotions.

Import POS.

Definition lineTotal (item : OrderItem) : Q :=
  unit_price item * quantity item.

(** The lines of an id, which [handleRemoveItem] drops. *)
Definition linesOf (itemId : string) (orderItems : list OrderItem) : list OrderItem :=
  filter (fun item => String.eqb (id item) itemId) orderItems.

(** A whole number other than zero. *)
Definition nonzero_whole (q : Q) : Prop :=
  exists z : Z, z <> 0%Z /\ q = inject_Z z.

(** A line as [handleAddItem] builds it while no order is loaded: it
    carries the name and the price the menu gives for its menu item. *)
Definition menu_line (item : OrderItem) : Prop :=
  order_id item = "new"%string
  /\ item_status item = i_new
  /\ notes item = ""%string
  /\ nonzero_whole (quantity item)
  /\ exists entry,
      menuEntry (menu_item_id item) = Some entry
      /\ menu_item_name item = entry_name entry
      /\ unit_price item = price entry.

Definition page_invariant (st : State) : Prop :=
  currentOrder st = None
  /\ form_notes (newOrderItem st) = ""%string
  /\ nonzero_whole (form_quantity (newOrderItem st))
  /\ Forall menu_line (orderItems st).

End POSNotions.

(** ** Sample states of the point-of-sale page *)

Module Samples.

Definition one_at_100 : POS.OrderItem :=
  POS.mkOrderItem "a" "new" "1" "Item A" 1 100 "" POS.i_new.

Definition two_at_100 : POS.OrderItem :=
  POS.mkOrderItem "b" "new" "2" "Item B" 2 100 "" POS.i_new.

(** An order of one item at 100 with a discount of 10 recorded on it. *)
Definition discounted_order : POS.Order :=
  POS.mkOrder "ORD001" "2" POS.o_served POS.dine_in 100 15 10 105 POS.pending
              "2023-06-05" "2023-06-05" "u1".

(** An order that has been paid in full. *)
Definition paid_order : POS.Order :=
  POS.mkOrder "ORD002" "5" POS.o_paid POS.dine_in 100 15 0 115 POS.paid
              "2023-06-05" "2023-06-05" "u1".

(** The page with the payment dialog open on an unpaid order of 115. *)
Definition paying : POS.State :=
  POS.mkState 1 None true
    (Some (POS.mkOrder "ORD003" "2" POS.o_served POS.dine_in 100 15 0 115 POS.pending
                       "2023-06-05" "2023-06-05" "u1"))
    [one_at_100] (POS.mkNewOrderItem "" 1 "").

(** The page on a paid order, with a Coke chosen in the Add Item form. *)
Definition adding_to_paid : POS.State :=
  POS.mkState 1 None false (Some paid_order) [one_at_100]
              (POS.mkNewOrderItem "3" 2 "").

(** An ingredient whose stock is exactly its minimum. *)
Definition at_minimum : Inventory.InventoryItem :=
  Inventory.mkInventoryItem "4" "Cheese" "Raw Materials" 5 "kg" 450 5
                            "Dairy Farm" "Dairy".


(** A menu item priced 250 whose cost is 100. *)
Definition burger_250_100 : Menu.MenuItem :=
  Menu.mkMenuItem "1" "Beef Burger" "" 250 100 "c1" "Burgers" true None None None.

(** Beef Burger, Coke, Beef Burger again: two burgers and a Coke. *)
Definition three_presses : list OrderScreen.Press :=
  [ OrderScreen.PressAdd (OrderScreen.mkMenuItem "1" "Beef Burger" 250 "Burgers");
    OrderScreen.PressAdd (OrderScreen.mkMenuItem "3" "Coke 330ml" 40 "Drinks");
    OrderScreen.PressAdd (OrderScreen.mkMenuItem "1" "Beef Burger" 250 "Burgers") ].

(** A back end that answers every save with the burger and refuses the
    rest without a detail. *)
Definition burger_server : MenuThunks.Server :=
  MenuThunks.mkServer
    (fun _ => MenuThunks.Failure None)
    (fun _ => MenuThunks.Failure None)
    (fun _ => MenuThunks.Success burger_250_100)
    (fun _ => MenuThunks.Success burger_250_100)
    (fun _ => MenuThunks.Failure None).

(** The menu dialog opened for adding, with the burger typed in. *)
Definition adding_burger : MenuPage.State :=
  MenuPage.mkState 0 true MenuPage.add None
    (MenuPage.mkForm "Beef Burger" "" "250" "100" "c1" true "").

End Samples.

(** * Properties *)

(** ** Order totals *)

Section Totals.

Lemma reduce_sum_from {A : Type} (f : A -> Q) (l : list A) (acc : Q) :
  JS.reduce (fun sum item => sum + f item) acc l == acc + Spec.sum_over f l.
Proof.
  unfold JS.reduce, Spec.sum_over.
  revert acc; induction l as [|x r IH]; intro acc; simpl.
  - ring.
  - rewrite IH. ring.
Qed.

Lemma reduce_sum {A : Type} (f : A -> Q) (l : list A) :
  JS.reduce (fun sum item => sum + f item) 0 l == Spec.sum_over f l.
Proof.
  rewrite reduce_sum_from. ring.
Qed.

(** C1. The subtotal of [calculateTotals] is the sum over the order items
    of unit_price x quantity, and so is the total of the waiter's screen
    over price x quantity; two items of quantities 1 and 2, both at unit
    price 100, give the subtotal 300. *)
Theorem calculateTotals_subtotal_is_sum :
  (forall orderItems : list POS.OrderItem,
      POS.subtotal (POS.calculateTotals orderItems)
      == Spec.sum_over (fun item => POS.unit_price item * POS.quantity item) orderItems)
  /\ (forall orderItems : list OrderScreen.OrderItem,
      OrderScreen.calculateTotal orderItems
      == Spec.sum_over (fun item => OrderScreen.price item * OrderScreen.quantity item)
                       orderItems)
  /\ (forall a b : POS.OrderItem,
      POS.quantity a == 1 -> POS.quantity b == 2 ->
      POS.unit_price a == 100 -> POS.unit_price b == 100 ->
      POS.subtotal (POS.calculateTotals [a; b]) == 300).
Proof.
  split; [|split].
  - intro orderItems. unfold POS.calculateTotals. simpl.
    apply reduce_sum.
  - intro orderItems. unfold OrderScreen.calculateTotal.
    apply reduce_sum.
  - intros a b Ha Hb Pa Pb. unfold POS.calculateTotals, JS.reduce. simpl.
    rewrite Ha, Hb, Pa, Pb. reflexivity.
Qed.

Lemma calculateTotals_subtotal_is_sum_witness :
  POS.subtotal (POS.calculateTotals [Samples.one_at_100; Samples.two_at_100]) == 300.
Proof.
  apply (proj2 (proj2 calculateTotals_subtotal_is_sum)); reflexivity.
Defined.

(** C2, as the specification states it, fails: one item at 100 and a
    discount of 10 on the order give the total 115, not 100 + 15 - 10. *)
Lemma total_ignores_discount :
  ~ (POS.total (POS.calculateTotals [Samples.one_at_100])
     == POS.subtotal (POS.calculateTotals [Samples.one_at_100])
        + POS.tax (POS.calculateTotals [Samples.one_at_100])
        - POS.discount Samples.discounted_order).
Proof.
  vm_compute. discriminate.
Qed.

(** C2, amended. The computed total is the computed subtotal plus the
    computed tax, the tax being 15% of the subtotal; no discount enters
    it, so it is subtotal + tax - discount exactly for the orders whose
    discount is zero. *)
Theorem calculateTotals_total :
  forall (orderItems : list POS.OrderItem) (order : POS.Order),
    let t := POS.calculateTotals orderItems in
    POS.total t == POS.subtotal t + POS.tax t
    /\ POS.tax t == POS.subtotal t * (15 # 100)
    /\ (POS.total t == POS.subtotal t + POS.tax t - POS.discount order
        <-> POS.discount order == 0).
Proof.
  intros orderItems order t. subst t. unfold POS.calculateTotals. simpl.
  split; [reflexivity | split; [reflexivity |]].
  split; intro H.
  - lra.
  - rewrite H. ring.
Qed.

Lemma calculateTotals_total_witness :
  POS.total (POS.calculateTotals [Samples.one_at_100])
  == POS.subtotal (POS.calculateTotals [Samples.one_at_100])
     + POS.tax (POS.calculateTotals [Samples.one_at_100])
     - POS.discount Samples.paid_order.
Proof.
  apply (proj2 (proj2 (calculateTotals_total [Samples.one_at_100] Samples.paid_order))).
  reflexivity.
Defined.

End Totals.

(** ** Payment *)

Section Payment.

(** C3, as the specification states it, fails: with the payment dialog
    open on an unpaid order whose total, 115, is the total on display,
    [handlePayment] leaves payment_status at pending; it becomes neither
    paid nor partial. *)
Lemma handlePayment_keeps_pending :
  POS.total (POS.calculateTotals (POS.orderItems Samples.paying)) == 115
  /\ option_map POS.order_total (POS.currentOrder Samples.paying) = Some 115
  /\ option_map POS.payment_status
       (POS.currentOrder (snd (POS.handlePayment Samples.paying))) <> Some POS.paid
  /\ option_map POS.payment_status
       (POS.currentOrder (snd (POS.handlePayment Samples.paying))) <> Some POS.partial.
Proof.
  repeat split; try reflexivity; simpl; discriminate.
Qed.

(** C3, amended. [handlePayment] takes no amount and records no payment:
    it prints a message and closes the payment dialog, and the order, with
    its payment_status, and the order items are left as they were. *)
Theorem handlePayment_only_closes_dialog :
  forall st : POS.State,
    let st' := snd (POS.handlePayment st) in
    POS.openPaymentDialog st' = false
    /\ POS.currentOrder st' = POS.currentOrder st
    /\ option_map POS.payment_status (POS.currentOrder st')
       = option_map POS.payment_status (POS.currentOrder st)
    /\ POS.orderItems st' = POS.orderItems st
    /\ POS.selectedTable st' = POS.selectedTable st
    /\ POS.newOrderItem st' = POS.newOrderItem st
    /\ POS.activeTab st' = POS.activeTab st.
Proof.
  intro st. simpl. repeat split; reflexivity.
Qed.

End Payment.

(** ** Adding an item *)

Section AddItem.

Lemma subtotal_snoc (orderItems : list POS.OrderItem) (item : POS.OrderItem) :
  POS.subtotal (POS.calculateTotals (orderItems ++ [item]))
  == POS.subtotal (POS.calculateTotals orderItems)
     + POS.unit_price item * POS.quantity item.
Proof.
  unfold POS.calculateTotals, JS.reduce. simpl.
  rewrite fold_left_app. simpl. reflexivity.
Qed.

(** C7, as the specification states it, fails: on an order whose status is
    paid, [handleAddItem] raises nothing and appends the chosen item. *)
Lemma handleAddItem_appends_to_paid_order :
  option_map POS.status (POS.currentOrder Samples.adding_to_paid) = Some POS.o_paid
  /\ POS.orderItems (POS.handleAddItem 17 Samples.adding_to_paid)
     <> POS.orderItems Samples.adding_to_paid
  /\ List.length (POS.orderItems (POS.handleAddItem 17 Samples.adding_to_paid)) = 2%nat.
Proof.
  split; [reflexivity | split; [| reflexivity]].
  vm_compute. discriminate.
Qed.

(** C7, amended. [handleAddItem] never fails and does not look at the
    status of the order.  When the chosen menu item id is not empty and is
    on the menu, it appends one order item, of status new, with the chosen
    quantity and the menu price, and the totals computed from the new list
    are the old subtotal plus unit_price x quantity, 15% of it as tax, and
    their sum; otherwise it changes nothing. *)
Theorem handleAddItem_appends :
  forall (now : Z) (st : POS.State),
    let chosen := POS.form_menu_item_id (POS.newOrderItem st) in
    let found :=
      JS.find (fun item => String.eqb (POS.entry_id item) chosen) POS.menuItems in
    let st' := POS.handleAddItem now st in
    (forall menuItem,
        JS.truthy chosen = true -> found = Some menuItem ->
        exists newItem,
          POS.orderItems st' = POS.orderItems st ++ [newItem]
          /\ POS.currentOrder st' = POS.currentOrder st
          /\ POS.item_status newItem = POS.i_new
          /\ POS.menu_item_id newItem = chosen
          /\ POS.quantity newItem = POS.form_quantity (POS.newOrderItem st)
          /\ POS.unit_price newItem = POS.price menuItem
          /\ POS.subtotal (POS.calculateTotals (POS.orderItems st'))
             == POS.subtotal (POS.calculateTotals (POS.orderItems st))
                + POS.price menuItem * POS.form_quantity (POS.newOrderItem st)
          /\ POS.tax (POS.calculateTotals (POS.orderItems st'))
             == POS.subtotal (POS.calculateTotals (POS.orderItems st')) * (15 # 100)
          /\ POS.total (POS.calculateTotals (POS.orderItems st'))
             == POS.subtotal (POS.calculateTotals (POS.orderItems st'))
                + POS.tax (POS.calculateTotals (POS.orderItems st')))
    /\ (JS.truthy chosen = false \/ found = None -> st' = st).
Proof.
  intros now st chosen found st'. subst st'. unfold POS.handleAddItem.
  fold chosen. fold found. split.
  - intros menuItem Hc Hf. rewrite Hc, Hf. simpl.
    eexists. split; [reflexivity|]. simpl.
    repeat split; try reflexivity.
    apply subtotal_snoc.
  - intros [Hc | Hf].
    + rewrite Hc. reflexivity.
    + rewrite Hf. destruct (negb (JS.truthy chosen)); reflexivity.
Qed.

Lemma handleAddItem_appends_witness :
  exists newItem,
    POS.orderItems (POS.handleAddItem 17 Samples.adding_to_paid)
    = POS.orderItems Samples.adding_to_paid ++ [newItem]
    /\ POS.unit_price newItem = 40.
Proof.
  destruct (proj1 (handleAddItem_appends 17 Samples.adding_to_paid)
                  (POS.mkMenuEntry "3" "Coke 330ml" 40 "Drinks")
                  eq_refl eq_refl)
    as [newItem [H1 [_ [_ [_ [_ [H2 _]]]]]]].
  exists newItem. split; [exact H1 | exact H2].
Defined.

End AddItem.

(** ** Low stock *)

Section LowStock.

(** C4. The Low Stock tab lists an inventory item exactly when its
    current_stock is at most its min_stock, and the status cell and the
    red background mark the same items; an item whose stock equals its
    minimum is listed. *)
Theorem lowStock_iff :
  forall (times : Q -> Q -> Q)
         (inventoryItems : list Inventory.InventoryItem) (item : Inventory.InventoryItem),
    (In item (Inventory.lowStock inventoryItems)
     <-> In item inventoryItems
         /\ Inventory.current_stock item <= Inventory.min_stock item)
    /\ (Inventory.stockStatus times item = Inventory.LowStock
        <-> Inventory.current_stock item <= Inventory.min_stock item)
    /\ (Inventory.rowBackground item = "#ffebee"%string
        <-> Inventory.current_stock item <= Inventory.min_stock item)
    /\ (In item inventoryItems ->
        Inventory.current_stock item == Inventory.min_stock item ->
        In item (Inventory.lowStock inventoryItems)).
Proof.
  intros times inventoryItems item.
  assert (Hin : In item (Inventory.lowStock inventoryItems)
                <-> In item inventoryItems
                    /\ Inventory.current_stock item <= Inventory.min_stock item).
  { unfold Inventory.lowStock. rewrite filter_In, Qle_bool_iff. reflexivity. }
  split; [exact Hin | split; [| split]].
  - unfold Inventory.stockStatus. rewrite <- Qle_bool_iff.
    destruct (Qle_bool (Inventory.current_stock item) (Inventory.min_stock item)).
    + split; reflexivity.
    + split; [| discriminate].
      destruct (Qle_bool _ _); discriminate.
  - unfold Inventory.rowBackground. rewrite <- Qle_bool_iff.
    destruct (Qle_bool (Inventory.current_stock item) (Inventory.min_stock item)).
    + split; reflexivity.
    + split; discriminate.
  - intros Hi He. apply Hin. split; [exact Hi |].
    rewrite He. apply Qle_refl.
Qed.

Lemma lowStock_iff_witness :
  In Samples.at_minimum
     (Inventory.lowStock (Inventory.sampleInventoryItems ++ [Samples.at_minimum])).
Proof.
  apply (proj2 (proj2 (proj2
           (lowStock_iff Qmult
                         (Inventory.sampleInventoryItems ++ [Samples.at_minimum])
                         Samples.at_minimum)))).
  - simpl. right. right. right. left. reflexivity.
  - reflexivity.
Defined.

End LowStock.

(** ** Profit margin *)

Section ProfitMargin.


Lemma ltb_true (x y : Q) : JS.ltb x y = true <-> x < y.
Proof.
  unfold JS.ltb. rewrite negb_true_iff.
  split; intro H.
  - apply Qnot_le_lt. intro L. apply Qle_bool_iff in L. congruence.
  - destruct (Qle_bool y x) eqn:E; [| reflexivity].
    apply Qle_bool_iff in E. exfalso. apply (Qlt_not_le _ _ H E).
Qed.

Lemma ltb_false (x y : Q) : JS.ltb x y = false <-> y <= x.
Proof.
  unfold JS.ltb. rewrite negb_false_iff. apply Qle_bool_iff.
Qed.


(** ** What a printed number reads as *)






















End ProfitMargin.

(** ** Status transitions of the order aggregate *)

Section Transitions.

Lemma allowed_spec (from to : OrderAggregate.Status) :
  OrderAggregate.allowed from to = true
  <-> OrderAggregate.adjacent from to
      \/ (to = OrderAggregate.cancelled /\ OrderAggregate.earlier from).
Proof.
  split.
  - destruct from, to; simpl; intro H; try discriminate H;
      first [ left; constructor | right; split; [reflexivity | constructor] ].
  - intros [H | [Ht He]].
    + destruct H; reflexivity.
    + subst to. destruct He; reflexivity.
Qed.

(** None of the status values the pages declare for an order is the
    cancelled state, and the declared paid value is terminal. *)
Lemma declared_status_not_cancelled (s : POS.OrderStatus) :
  OrderAggregate.of_declared s <> OrderAggregate.cancelled
  /\ (OrderAggregate.terminal (OrderAggregate.of_declared s) = true <-> s = POS.o_paid).
Proof.
  destruct s; simpl; split; try discriminate; split; congruence.
Qed.

(** C6. [setStatus] succeeds only for the transitions of the table
    new -> preparing -> ready -> served -> paid and for the move of an
    order in an earlier state to cancelled; it then sets the status and
    appends it to the history.  Any other call reports
    InvalidTransitionError and leaves the order as it was. *)
Theorem setStatus_validates :
  forall (order : OrderAggregate.Order) (newStatus : OrderAggregate.Status),
    let legal :=
      OrderAggregate.adjacent (OrderAggregate.status order) newStatus
      \/ (newStatus = OrderAggregate.cancelled
          /\ OrderAggregate.earlier (OrderAggregate.status order)) in
    let r := OrderAggregate.setStatus order newStatus in
    (fst r = None <-> legal)
    /\ (legal ->
        OrderAggregate.status (snd r) = newStatus
        /\ OrderAggregate.history (snd r) = OrderAggregate.history order ++ [newStatus])
    /\ (~ legal ->
        fst r = Some OrderAggregate.InvalidTransitionError
        /\ snd r = order
        /\ OrderAggregate.status (snd r) = OrderAggregate.status order).
Proof.
  intros order newStatus legal r. subst r legal.
  unfold OrderAggregate.setStatus.
  rewrite <- allowed_spec.
  destruct (OrderAggregate.allowed (OrderAggregate.status order) newStatus); simpl.
  - split; [split; reflexivity | split].
    + intros _. split; reflexivity.
    + intro H. exfalso. apply H. reflexivity.
  - split; [split; discriminate | split].
    + discriminate.
    + intros _. repeat split; reflexivity.
Qed.

Lemma setStatus_validates_witness :
  (OrderAggregate.status
     (snd (OrderAggregate.setStatus
             (OrderAggregate.mkOrder OrderAggregate.ready [OrderAggregate.new])
             OrderAggregate.served))
   = OrderAggregate.served)
  /\ fst (OrderAggregate.setStatus
            (OrderAggregate.mkOrder OrderAggregate.new [OrderAggregate.new])
            OrderAggregate.served)
     = Some OrderAggregate.InvalidTransitionError.
Proof.
  split.
  - apply (proj1 (proj2 (setStatus_validates
             (OrderAggregate.mkOrder OrderAggregate.ready [OrderAggregate.new])
             OrderAggregate.served))).
    left. constructor.
  - apply (proj2 (proj2 (setStatus_validates
             (OrderAggregate.mkOrder OrderAggregate.new [OrderAggregate.new])
             OrderAggregate.served))).
    intros [H | [H _]]; [inversion H | discriminate H].
Defined.

End Transitions.

(** ** Inventory variance *)

Section Variance.

Import Counts.

(** C8. For every count item [recordCount] stores the variance
    counted - system, exactly, which is negative when the counted quantity
    is below the system quantity, and keeps the rest of the item; it flags
    exactly the stored items whose absolute variance exceeds the
    tolerance. *)
Theorem recordCount_variance :
  forall (tolerance : Q) (countItems : list InventoryCountItem),
    let r := recordCount tolerance countItems in
    Forall2 (fun item kept =>
               variance kept = counted_quantity item - system_quantity item
               /\ ingredient_id kept = ingredient_id item
               /\ counted_quantity kept = counted_quantity item
               /\ system_quantity kept = system_quantity item)
            countItems (stored r)
    /\ Forall (fun kept =>
                 variance kept == counted_quantity kept - system_quantity kept
                 /\ (variance kept < 0
                     <-> counted_quantity kept < system_quantity kept))
              (stored r)
    /\ (forall kept,
          In kept (flagged r)
          <-> In kept (stored r) /\ tolerance < Qabs (variance kept)).
Proof.
  intros tolerance countItems r. subst r. unfold recordCount. simpl.
  split; [| split].
  - induction countItems as [|x l IH]; simpl; constructor;
      [repeat split | exact IH].
  - rewrite Forall_forall. intros kept Hk.
    apply in_map_iff in Hk. destruct Hk as [x [Hx _]]. subst kept. simpl.
    split; [reflexivity |]. split; intro H; lra.
  - intro kept. rewrite filter_In. unfold exceeds.
    rewrite ltb_true. reflexivity.
Qed.

Lemma recordCount_variance_witness :
  In (withVariance
        (mkInventoryCountItem "1" "c1" "beef" (141 # 10) (152 # 10) 0 None))
     (flagged (recordCount (1 # 2)
                 [mkInventoryCountItem "1" "c1" "beef" (141 # 10) (152 # 10) 0 None;
                  mkInventoryCountItem "2" "c1" "lettuce" (56 # 10) (55 # 10) 0 None])).
Proof.
  apply (proj2 (proj2 (recordCount_variance (1 # 2)
           [mkInventoryCountItem "1" "c1" "beef" (141 # 10) (152 # 10) 0 None;
            mkInventoryCountItem "2" "c1" "lettuce" (56 # 10) (55 # 10) 0 None]))).
  split.
  - simpl. left. reflexivity.
  - reflexivity.
Defined.

End Variance.

(** ** Stock and the inventory page *)

Section Stock.

Variable parseFloat : string -> option Q.
Variable Number_toString : Q -> string.

Lemma step_keeps_inventory (e : Inventory.Event) (st : Inventory.State) :
  Inventory.inventoryItems (Inventory.step parseFloat Number_toString e st)
  = Inventory.inventoryItems st.
Proof.
  destruct e as [v | mode item | | | f]; simpl; try reflexivity.
  destruct mode, item; reflexivity.
Qed.

Lemma run_keeps_inventory (es : list Inventory.Event) (st : Inventory.State) :
  Inventory.inventoryItems (Inventory.run parseFloat Number_toString es st)
  = Inventory.inventoryItems st.
Proof.
  unfold Inventory.run. revert st.
  induction es as [|e es IH]; intro st; simpl.
  - reflexivity.
  - rewrite IH. apply step_keeps_inventory.
Qed.

End Stock.

(** C9, as the specification states it, fails: while the Beef row, of
    stock 12.5, is edited and the quantity 20 is submitted, the stock of
    Beef afterwards is still 12.5, which is the outcome of no receiving,
    issuing or adjustment of 20. *)
Lemma handleSubmit_leaves_stock :
  let r := Inventory.handleSubmit Inventory.parseDigits Inventory.editingBeef in
  Inventory.l_current_stock (fst r) = Some 20
  /\ Inventory.stockOf "1" (Inventory.inventoryItems Inventory.editingBeef)
     = Some (125 # 10)
  /\ forall type : Inventory.TransactionType,
      ~ (exists stock,
            Inventory.stockOf "1" (Inventory.inventoryItems (snd r)) = Some stock
            /\ stock == Spec.stock_after type (125 # 10) 20).
Proof.
  split; [reflexivity | split; [reflexivity |]].
  intros type [stock [Hs He]].
  vm_compute in Hs. injection Hs as Hs. subst stock.
  destruct type; vm_compute in He; discriminate He.
Qed.

(** C9, amended. No handler of the inventory page records a transaction
    or changes a stock: [handleSubmit] prints the form and closes the
    dialog, and after any sequence of the page's events the inventory
    items, and with them every current_stock, are as they were. *)
Theorem inventory_page_never_changes_stock :
  forall (parseFloat : string -> option Q) (Number_toString : Q -> string)
         (es : list Inventory.Event) (st : Inventory.State),
    snd (Inventory.handleSubmit parseFloat st) = Inventory.handleCloseDialog st
    /\ Inventory.inventoryItems (snd (Inventory.handleSubmit parseFloat st))
       = Inventory.inventoryItems st
    /\ Inventory.inventoryItems (Inventory.run parseFloat Number_toString es st)
       = Inventory.inventoryItems st
    /\ forall itemId,
        Inventory.stockOf itemId
          (Inventory.inventoryItems (Inventory.run parseFloat Number_toString es st))
        = Inventory.stockOf itemId (Inventory.inventoryItems st).
Proof.
  intros parseFloat Number_toString es st.
  split; [reflexivity | split; [reflexivity | split]].
  - apply run_keeps_inventory.
  - intro itemId. rewrite run_keeps_inventory. reflexivity.
Qed.

(** ** The order of the waiter's screen *)

Section OrderLines.

Import OrderScreen Lines.

Lemma is_count_ge_1 (q : Q) : is_count q -> 1 <= q.
Proof.
  intros [p Hp]. rewrite Hp. unfold Qle. simpl. lia.
Qed.

Lemma is_count_succ (q : Q) : is_count q -> is_count (q + 1).
Proof.
  intros [p Hp]. exists (p + 1)%positive. rewrite Hp.
  unfold Qeq. simpl. lia.
Qed.

Lemma is_count_pred (q : Q) : is_count q -> JS.gtb q 1 = true -> is_count (q - 1).
Proof.
  intros [p Hp] Hg. apply ltb_true in Hg. rewrite Hp in Hg.
  assert (Hp1 : (1 < p)%positive).
  { unfold Qlt in Hg. simpl in Hg. lia. }
  exists (p - 1)%positive. rewrite Hp.
  rewrite Pos2Z.inj_sub by exact Hp1.
  unfold Qeq, Qminus, Qplus, Qopp, inject_Z. cbn [Qnum Qden]. lia.
Qed.

Lemma is_count_not_gt (q : Q) : is_count q -> JS.gtb q 1 = false -> q == 1.
Proof.
  intros Hc Hg. apply ltb_false in Hg.
  apply is_count_ge_1 in Hc. lra.
Qed.

Lemma find_none_not_in (itemId : string) (l : list OrderItem) :
  JS.find (has_id itemId) l = None -> ~ In itemId (map id l).
Proof.
  unfold JS.find. induction l as [|x r IH]; simpl; intro H.
  - tauto.
  - unfold has_id in H at 1. destruct (String.eqb (id x) itemId) eqn:E.
    + discriminate H.
    + apply String.eqb_neq in E. intros [Hx | Hr]; [congruence | exact (IH H Hr)].
Qed.

Lemma find_some_id (itemId : string) (l : list OrderItem) (e : OrderItem) :
  JS.find (has_id itemId) l = Some e -> In e l /\ id e = itemId.
Proof.
  unfold JS.find. intro H. apply find_some in H.
  destruct H as [Hi He]. split; [exact Hi |].
  apply String.eqb_eq. exact He.
Qed.

Lemma nodup_same_id (l : list OrderItem) (a b : OrderItem) :
  NoDup (map id l) -> In a l -> In b l -> id a = id b -> a = b.
Proof.
  induction l as [|x r IH]; simpl; intros Hn Ha Hb Hid.
  - contradiction.
  - inversion Hn as [|? ? Hx Hr]; subst.
    destruct Ha as [Ha | Ha], Hb as [Hb | Hb].
    + congruence.
    + subst x. exfalso. apply Hx. rewrite Hid. apply in_map. exact Hb.
    + subst x. exfalso. apply Hx. rewrite <- Hid. apply in_map. exact Ha.
    + apply IH; assumption.
Qed.

Lemma requantify_id (itemId : string) (g : Q -> Q) (line : OrderItem) :
  id (requantify itemId g line) = id line.
Proof.
  unfold requantify. destruct (String.eqb (id line) itemId); reflexivity.
Qed.

Lemma map_requantify_ids (itemId : string) (g : Q -> Q) (l : list OrderItem) :
  map id (map (requantify itemId g) l) = map id l.
Proof.
  rewrite map_map. apply map_ext. intro line. apply requantify_id.
Qed.

Lemma find_requantify (itemId j : string) (g : Q -> Q) (l : list OrderItem) :
  JS.find (has_id j) (map (requantify itemId g) l)
  = option_map (requantify itemId g) (JS.find (has_id j) l).
Proof.
  unfold JS.find. induction l as [|x r IH]; simpl.
  - reflexivity.
  - unfold has_id at 1 3. rewrite requantify_id.
    destruct (String.eqb (id x) j); [reflexivity | exact IH].
Qed.

Lemma quantityOf_requantify_same (itemId : string) (g : Q -> Q) (l : list OrderItem) :
  quantityOf itemId (map (requantify itemId g) l) = option_map g (quantityOf itemId l).
Proof.
  unfold quantityOf. fold (has_id itemId). rewrite find_requantify.
  destruct (JS.find (has_id itemId) l) as [e|] eqn:E; simpl; [| reflexivity].
  apply find_some_id in E. destruct E as [_ E].
  unfold requantify. rewrite E, String.eqb_refl. reflexivity.
Qed.

Lemma quantityOf_requantify_other (itemId j : string) (g : Q -> Q) (l : list OrderItem) :
  j <> itemId ->
  quantityOf j (map (requantify itemId g) l) = quantityOf j l.
Proof.
  intro Hj. unfold quantityOf. fold (has_id j). rewrite find_requantify.
  destruct (JS.find (has_id j) l) as [e|] eqn:E; simpl; [| reflexivity].
  apply find_some_id in E. destruct E as [_ E].
  unfold requantify. rewrite E.
  apply String.eqb_neq in Hj. rewrite Hj. reflexivity.
Qed.

Lemma without_ids_incl (itemId j : string) (l : list OrderItem) :
  In j (map id (without itemId l)) -> In j (map id l).
Proof.
  unfold without. rewrite !in_map_iff.
  intros [x [Hx Hi]]. apply filter_In in Hi. exists x. tauto.
Qed.

Lemma without_nodup (itemId : string) (l : list OrderItem) :
  NoDup (map id l) -> NoDup (map id (without itemId l)).
Proof.
  induction l as [|x r IH]; simpl; intro Hn.
  - constructor.
  - inversion Hn as [|? ? Hx Hr]; subst.
    destruct (negb (String.eqb (id x) itemId)); simpl.
    + constructor; [| exact (IH Hr)].
      intro H. apply Hx. exact (without_ids_incl _ _ _ H).
    + exact (IH Hr).
Qed.

Lemma find_without_same (itemId : string) (l : list OrderItem) :
  JS.find (has_id itemId) (without itemId l) = None.
Proof.
  unfold JS.find. induction l as [|x r IH]; simpl.
  - reflexivity.
  - destruct (String.eqb (id x) itemId) eqn:E; simpl.
    + exact IH.
    + unfold has_id at 1. rewrite E. exact IH.
Qed.

Lemma find_without_other (itemId j : string) (l : list OrderItem) :
  j <> itemId ->
  JS.find (has_id j) (without itemId l) = JS.find (has_id j) l.
Proof.
  intro Hj. unfold JS.find. induction l as [|x r IH]; simpl.
  - reflexivity.
  - destruct (String.eqb (id x) itemId) eqn:E; simpl.
    + unfold has_id at 2. apply String.eqb_eq in E.
      assert (En : String.eqb (id x) j = false).
      { apply String.eqb_neq. congruence. }
      rewrite En. exact IH.
    + unfold has_id at 1 3. destruct (String.eqb (id x) j); [reflexivity | exact IH].
Qed.

Lemma without_absent (itemId : string) (l : list OrderItem) :
  JS.find (has_id itemId) l = None -> without itemId l = l.
Proof.
  unfold JS.find. induction l as [|x r IH]; simpl; intro H.
  - reflexivity.
  - unfold has_id in H at 1. destruct (String.eqb (id x) itemId); simpl.
    + discriminate H.
    + f_equal. exact (IH H).
Qed.

(** ** The two presses, in terms of the notions above *)

Lemma addToOrder_eq (item : MenuItem) (l : list OrderItem) :
  addToOrder item l
  = match JS.find (has_id (item_id item)) l with
    | Some _ => map (requantify (item_id item) (fun q => q + 1)) l
    | None => l ++ [mkOrderItem (item_id item) (item_name item) (item_price item)
                                (item_category item) 1]
    end.
Proof. reflexivity. Qed.

Lemma removeFromOrder_eq (itemId : string) (l : list OrderItem) :
  removeFromOrder itemId l
  = if match JS.find (has_id itemId) l with
       | Some e => JS.gtb (quantity e) 1
       | None => false
       end
    then map (requantify itemId (fun q => q - 1)) l
    else without itemId l.
Proof. reflexivity. Qed.

Lemma nodup_snoc (i : string) (ids : list string) :
  NoDup ids -> ~ In i ids -> NoDup (ids ++ [i]).
Proof.
  induction ids as [|x r IH]; simpl; intros Hn Hi.
  - constructor; [tauto | constructor].
  - inversion Hn as [|? ? Hx Hr]; subst. constructor.
    + rewrite in_app_iff. simpl. intros [H | [H | []]]; [tauto | subst; tauto].
    + apply IH; tauto.
Qed.

Lemma addToOrder_well_formed (item : MenuItem) (l : list OrderItem) :
  well_formed l -> well_formed (addToOrder item l).
Proof.
  intros [Hn Hq]. rewrite addToOrder_eq.
  destruct (JS.find (has_id (item_id item)) l) as [e|] eqn:E; split.
  - rewrite map_requantify_ids. exact Hn.
  - rewrite Forall_forall in *. intros line Hl.
    apply in_map_iff in Hl. destruct Hl as [x [Hx Hi]]. subst line.
    unfold requantify. destruct (String.eqb (id x) (item_id item)); simpl.
    + apply is_count_succ. exact (Hq x Hi).
    + exact (Hq x Hi).
  - rewrite map_app. simpl. apply nodup_snoc; [exact Hn |].
    apply find_none_not_in. exact E.
  - apply Forall_app. split; [exact Hq |].
    constructor; [| constructor]. simpl. exists 1%positive. reflexivity.
Qed.

Lemma removeFromOrder_well_formed (itemId : string) (l : list OrderItem) :
  well_formed l -> well_formed (removeFromOrder itemId l).
Proof.
  intros [Hn Hq]. rewrite removeFromOrder_eq.
  destruct (JS.find (has_id itemId) l) as [e|] eqn:E;
    [destruct (JS.gtb (quantity e) 1) eqn:G |]; split.
  - rewrite map_requantify_ids. exact Hn.
  - apply find_some_id in E. destruct E as [He Hid].
    rewrite Forall_forall in *. intros line Hl.
    apply in_map_iff in Hl. destruct Hl as [x [Hx Hi]]. subst line.
    unfold requantify. destruct (String.eqb (id x) itemId) eqn:Ex; simpl.
    + apply String.eqb_eq in Ex.
      assert (x = e) by (apply (nodup_same_id l); congruence). subst x.
      apply is_count_pred; [exact (Hq e He) | exact G].
    + exact (Hq x Hi).
  - apply without_nodup. exact Hn.
  - rewrite Forall_forall in *. intros line Hl.
    apply filter_In in Hl. apply Hq. tauto.
  - apply without_nodup. exact Hn.
  - rewrite Forall_forall in *. intros line Hl.
    apply filter_In in Hl. apply Hq. tauto.
Qed.

Lemma presses_well_formed (ps : list Press) (l : list OrderItem) :
  well_formed l -> well_formed (presses ps l).
Proof.
  unfold presses. revert l.
  induction ps as [|p ps IH]; intros l Hl; simpl.
  - exact Hl.
  - apply IH. destruct p as [item | itemId]; simpl.
    + apply addToOrder_well_formed. exact Hl.
    + apply removeFromOrder_well_formed. exact Hl.
Qed.

Lemma empty_well_formed : well_formed [].
Proof.
  split; constructor.
Qed.

Lemma quantityOf_count (itemId : string) (l : list OrderItem) (q : Q) :
  well_formed l -> quantityOf itemId l = Some q -> is_count q.
Proof.
  intros [_ Hq] H. unfold quantityOf in H. fold (has_id itemId) in H.
  destruct (JS.find (has_id itemId) l) as [e|] eqn:E; [| discriminate H].
  simpl in H. injection H as H. subst q.
  apply find_some_id in E. rewrite Forall_forall in Hq. apply Hq. tauto.
Qed.

Lemma find_snoc (p : OrderItem -> bool) (l : list OrderItem) (x : OrderItem) :
  JS.find p (l ++ [x])
  = match JS.find p l with
    | Some e => Some e
    | None => if p x then Some x else None
    end.
Proof.
  unfold JS.find. induction l as [|y r IH]; simpl.
  - reflexivity.
  - destruct (p y); [reflexivity | exact IH].
Qed.

(** What [addToOrder] does to the line of the item and to the others. *)
Lemma addToOrder_effect (item : MenuItem) (l : list OrderItem) :
  match quantityOf (item_id item) l with
  | Some q =>
      quantityOf (item_id item) (addToOrder item l) = Some (q + 1)
      /\ map id (addToOrder item l) = map id l
  | None =>
      addToOrder item l
      = l ++ [mkOrderItem (item_id item) (item_name item) (item_price item)
                          (item_category item) 1]
  end
  /\ forall j, j <> item_id item ->
               quantityOf j (addToOrder item l) = quantityOf j l.
Proof.
  rewrite addToOrder_eq.
  pose proof (quantityOf_requantify_same (item_id item) (fun q => q + 1) l) as Hs.
  pose proof (fun j => quantityOf_requantify_other (item_id item) j (fun q => q + 1) l) as Ho.
  unfold quantityOf in *. fold (has_id (item_id item)) in *.
  destruct (JS.find (has_id (item_id item)) l) as [e|] eqn:E; simpl in *.
  - split; [split; [exact Hs | apply map_requantify_ids] | exact Ho].
  - split; [reflexivity |].
    intros j Hj. fold (has_id j). rewrite find_snoc.
    destruct (JS.find (has_id j) l); [reflexivity |].
    unfold has_id. simpl.
    assert (En : String.eqb (item_id item) j = false).
    { apply String.eqb_neq. congruence. }
    rewrite En. reflexivity.
Qed.

(** What [removeFromOrder] does to the line of the id and to the others. *)
Lemma removeFromOrder_effect (itemId : string) (l : list OrderItem) :
  match quantityOf itemId l with
  | Some q =>
      (1 < q ->
       quantityOf itemId (removeFromOrder itemId l) = Some (q - 1)
       /\ map id (removeFromOrder itemId l) = map id l)
      /\ (q <= 1 -> quantityOf itemId (removeFromOrder itemId l) = None)
  | None => removeFromOrder itemId l = l
  end
  /\ forall j, j <> itemId ->
               quantityOf j (removeFromOrder itemId l) = quantityOf j l.
Proof.
  rewrite removeFromOrder_eq.
  pose proof (quantityOf_requantify_same itemId (fun q => q - 1) l) as Hs.
  pose proof (fun j => quantityOf_requantify_other itemId j (fun q => q - 1) l) as Ho.
  pose proof (find_without_same itemId l) as Hw.
  pose proof (fun j => find_without_other itemId j l) as Hwo.
  unfold quantityOf in *. fold (has_id itemId) in *.
  destruct (JS.find (has_id itemId) l) as [e|] eqn:E; simpl in *.
  - destruct (JS.gtb (quantity e) 1) eqn:G.
    + apply ltb_true in G. split; [split |].
      * intros _. split; [exact Hs | apply map_requantify_ids].
      * intro Hle. exfalso. apply (Qlt_not_le _ _ G Hle).
      * exact Ho.
    + apply ltb_false in G. split; [split |].
      * intro Hlt. exfalso. apply (Qlt_not_le _ _ Hlt G).
      * intros _. rewrite Hw. reflexivity.
      * intros j Hj. fold (has_id j). rewrite (Hwo j Hj). reflexivity.
  - split.
    + apply without_absent. exact E.
    + intros j Hj. fold (has_id j). rewrite (Hwo j Hj). reflexivity.
Qed.

Lemma find_own_line (l : list OrderItem) (line : OrderItem) :
  NoDup (map id l) -> In line l -> JS.find (has_id (id line)) l = Some line.
Proof.
  intros Hn Hi.
  destruct (JS.find (has_id (id line)) l) as [e|] eqn:E.
  - apply find_some_id in E. destruct E as [He Hid].
    f_equal. apply (nodup_same_id l); assumption.
  - exfalso. apply (find_none_not_in _ _ E). apply in_map. exact Hi.
Qed.

(** C10. Starting from the empty order, after any sequence of presses
    every line has a quantity of at least 1 and no menu item id has two
    lines.  Adding an item that has a line raises that line's quantity by
    1 and adds no line, adding another appends a line of quantity 1;
    removing lowers the quantity by 1 when it exceeds 1 and deletes the
    line when it is 1, which are the only two cases; the other lines keep
    their quantities.  The plus button of a line raises that very line's
    quantity by 1. *)
Theorem order_lines_invariant :
  forall ps : list Press,
    let orderItems := presses ps [] in
    Forall (fun line => 1 <= quantity line) orderItems
    /\ NoDup (map id orderItems)
    /\ (forall item : MenuItem,
          match quantityOf (item_id item) orderItems with
          | Some q =>
              quantityOf (item_id item) (addToOrder item orderItems) = Some (q + 1)
              /\ map id (addToOrder item orderItems) = map id orderItems
          | None =>
              addToOrder item orderItems
              = orderItems ++ [mkOrderItem (item_id item) (item_name item)
                                           (item_price item) (item_category item) 1]
          end
          /\ forall j, j <> item_id item ->
                       quantityOf j (addToOrder item orderItems)
                       = quantityOf j orderItems)
    /\ (forall itemId : string,
          match quantityOf itemId orderItems with
          | Some q =>
              (1 < q \/ q == 1)
              /\ (1 < q ->
                  quantityOf itemId (removeFromOrder itemId orderItems) = Some (q - 1)
                  /\ map id (removeFromOrder itemId orderItems) = map id orderItems)
              /\ (q == 1 ->
                  quantityOf itemId (removeFromOrder itemId orderItems) = None)
          | None => removeFromOrder itemId orderItems = orderItems
          end
          /\ forall j, j <> itemId ->
                       quantityOf j (removeFromOrder itemId orderItems)
                       = quantityOf j orderItems)
    /\ Forall (fun line =>
                 quantityOf (id line) (addToOrder (as_item line) orderItems)
                 = Some (quantity line + 1))
              orderItems.
Proof.
  intros ps orderItems.
  assert (Hwf : well_formed orderItems).
  { apply presses_well_formed. exact empty_well_formed. }
  split; [| split; [| split; [| split]]].
  - destruct Hwf as [_ Hq]. rewrite Forall_forall in *.
    intros line Hl. apply is_count_ge_1. exact (Hq line Hl).
  - exact (proj1 Hwf).
  - intro item. apply addToOrder_effect.
  - intro itemId.
    pose proof (removeFromOrder_effect itemId orderItems) as [He Ho].
    split; [| exact Ho].
    destruct (quantityOf itemId orderItems) as [q|] eqn:Eq; [| exact He].
    destruct He as [Hgt Hle].
    assert (Hc : 1 <= q).
    { apply is_count_ge_1. exact (quantityOf_count itemId orderItems q Hwf Eq). }
    split; [| split].
    + destruct (Qlt_le_dec 1 q) as [H | H]; [left; exact H | right; lra].
    + exact Hgt.
    + intro H1. apply Hle. rewrite H1. apply Qle_refl.
  - rewrite Forall_forall. intros line Hl.
    pose proof (addToOrder_effect (as_item line) orderItems) as [He _].
    simpl in He. unfold quantityOf in He at 1. fold (has_id (id line)) in He.
    rewrite (find_own_line orderItems line (proj1 Hwf) Hl) in He.
    simpl in He. exact (proj1 He).
Qed.

Lemma order_lines_invariant_witness :
  quantityOf "1" (removeFromOrder "1" (presses Samples.three_presses []))
  = Some (1 + 1 - 1)
  /\ quantityOf "3" (removeFromOrder "3" (presses Samples.three_presses [])) = None.
Proof.
  destruct (order_lines_invariant Samples.three_presses) as [_ [_ [_ [Hr _]]]].
  split.
  - destruct (Hr "1"%string) as [H _].
    assert (E : quantityOf "1" (presses Samples.three_presses []) = Some (1 + 1))
      by reflexivity.
    rewrite E in H. apply H. reflexivity.
  - destruct (Hr "3"%string) as [H _].
    assert (E : quantityOf "3" (presses Samples.three_presses []) = Some 1)
      by reflexivity.
    rewrite E in H. apply H. reflexivity.
Defined.

End OrderLines.

(** * Further properties of the pages *)

(** ** The point-of-sale page *)

Section PointOfSale.

Import POS POSNotions.

Lemma sum_over_split {A : Type} (f : A -> Q) (p : A -> bool) (l : list A) :
  Spec.sum_over f l
  == Spec.sum_over f (filter p l) + Spec.sum_over f (filter (fun x => negb (p x)) l).
Proof.
  unfold Spec.sum_over. induction l as [|x r IH]; simpl.
  - reflexivity.
  - destruct (p x); simpl; rewrite IH; ring.
Qed.

Lemma subtotal_sum_over (l : list OrderItem) :
  subtotal (calculateTotals l) == Spec.sum_over lineTotal l.
Proof.
  unfold calculateTotals. simpl. apply reduce_sum.
Qed.

Lemma filter_absent (itemId : string) (l : list OrderItem) :
  ~ In itemId (map id l) ->
  filter (fun item => negb (String.eqb (id item) itemId)) l = l.
Proof.
  induction l as [|x r IH]; simpl; intro H.
  - reflexivity.
  - destruct (String.eqb (id x) itemId) eqn:E; simpl.
    + apply String.eqb_eq in E. tauto.
    + f_equal. apply IH. tauto.
Qed.

(** X1. [handleRemoveItem] drops every line of the id and keeps the
    others: the subtotal falls by the line totals of the dropped lines,
    and an id that is on no line leaves the order as it is. *)
Theorem handleRemoveItem_subtotal :
  forall (itemId : string) (st : State),
    let st' := handleRemoveItem itemId st in
    (forall item, In item (orderItems st')
                  <-> In item (orderItems st) /\ id item <> itemId)
    /\ subtotal (calculateTotals (orderItems st'))
       == subtotal (calculateTotals (orderItems st))
          - Spec.sum_over lineTotal (linesOf itemId (orderItems st))
    /\ (~ In itemId (map id (orderItems st)) -> st' = st).
Proof.
  intros itemId st st'. subst st'. unfold handleRemoveItem. cbn [orderItems].
  split; [| split].
  - intro item. rewrite filter_In, negb_true_iff, String.eqb_neq. reflexivity.
  - rewrite !subtotal_sum_over.
    rewrite (sum_over_split lineTotal (fun item => String.eqb (id item) itemId)
                            (orderItems st)).
    unfold linesOf. ring.
  - intro H. rewrite (filter_absent _ _ H). destruct st; reflexivity.
Qed.

Lemma handleRemoveItem_subtotal_witness :
  handleRemoveItem "zz" Samples.adding_to_paid = Samples.adding_to_paid.
Proof.
  apply (proj2 (proj2 (handleRemoveItem_subtotal "zz" Samples.adding_to_paid))).
  simpl. intros [H | []]. discriminate H.
Defined.

Lemma menuEntry_truthy (i : string) (entry : MenuEntry) :
  menuEntry i = Some entry -> JS.truthy i = true.
Proof.
  destruct i; [discriminate | reflexivity].
Qed.

Lemma handleAddItem_orderItems (now : Z) (st : State) (entry : MenuEntry) :
  menuEntry (form_menu_item_id (newOrderItem st)) = Some entry ->
  handleAddItem now st
  = mkState (activeTab st) (selectedTable st) (openPaymentDialog st) (currentOrder st)
            (orderItems st ++
             [mkOrderItem (JS.Z_toString now)
                          (match currentOrder st with
                           | Some o => JS.or_else (order_id_of o) "new"
                           | None => "new"%string
                           end)
                          (form_menu_item_id (newOrderItem st))
                          (entry_name entry)
                          (form_quantity (newOrderItem st))
                          (price entry)
                          (form_notes (newOrderItem st))
                          i_new])
            (mkNewOrderItem "" 1 "").
Proof.
  intro H. unfold handleAddItem. cbv zeta.
  rewrite (menuEntry_truthy _ _ H). cbn [negb].
  unfold menuEntry in H. rewrite H. reflexivity.
Qed.

Lemma remove_appended (itemId : string) (l extra : list OrderItem) :
  ~ In itemId (map id l) ->
  Forall (fun item => id item = itemId) extra ->
  filter (fun item => negb (String.eqb (id item) itemId)) (l ++ extra) = l.
Proof.
  intros Hl He. rewrite filter_app, (filter_absent _ _ Hl).
  rewrite <- (app_nil_r l) at 2. f_equal.
  induction He as [|x r Hx _ IH]; simpl.
  - reflexivity.
  - rewrite Hx, String.eqb_refl. simpl. exact IH.
Qed.

(** X2. Adding an item and then removing the line by its id gives the
    order back, when no earlier line has that id.  The id of a line is the
    text of [Date.now()]: two lines added at the same millisecond share
    it, and one removal drops them both. *)
Theorem add_then_remove :
  forall (now : Z) (st : State) (first second : MenuEntry) (value : string),
    ~ In (JS.Z_toString now) (map id (orderItems st)) ->
    menuEntry (form_menu_item_id (newOrderItem st)) = Some first ->
    menuEntry value = Some second ->
    let once := handleAddItem now st in
    let twice := handleAddItem now (selectMenuItem value once) in
    orderItems (handleRemoveItem (JS.Z_toString now) once) = orderItems st
    /\ List.length (orderItems twice) = S (S (List.length (orderItems st)))
    /\ orderItems (handleRemoveItem (JS.Z_toString now) twice) = orderItems st.
Proof.
  intros now st first second value Hfresh H1 H2 once twice.
  assert (E1 : once = handleAddItem now st) by reflexivity.
  rewrite (handleAddItem_orderItems now st first H1) in E1.
  assert (E2 : twice = handleAddItem now (selectMenuItem value once)) by reflexivity.
  rewrite (handleAddItem_orderItems now (selectMenuItem value once) second) in E2
    by (simpl; exact H2).
  rewrite E1 in E2. simpl in E2.
  rewrite E2, E1. simpl.
  split; [| split].
  - apply remove_appended; [exact Hfresh |]. repeat constructor.
  - rewrite !length_app. simpl. lia.
  - rewrite <- app_assoc. apply remove_appended; [exact Hfresh |]. repeat constructor.
Qed.

Lemma add_then_remove_witness :
  orderItems (handleRemoveItem "17"
                (handleAddItem 17 (selectMenuItem "5"
                   (handleAddItem 17 Samples.adding_to_paid))))
  = orderItems Samples.adding_to_paid.
Proof.
  apply (proj2 (proj2 (add_then_remove 17 Samples.adding_to_paid
                         (mkMenuEntry "3" "Coke 330ml" 40 "Drinks")
                         (mkMenuEntry "5" "French Fries" 80 "Sides") "5"
                         ltac:(simpl; intros [H | []]; discriminate H)
                         eq_refl eq_refl))).
Defined.

(** X3. The totals do not depend on the order of the lines, the subtotal
    of two lists put together is the sum of their subtotals, and the total
    is always 115% of the subtotal. *)
Theorem calculateTotals_algebra :
  forall l1 l2 : list OrderItem,
    subtotal (calculateTotals (l1 ++ l2))
    == subtotal (calculateTotals l1) + subtotal (calculateTotals l2)
    /\ total (calculateTotals l1) == subtotal (calculateTotals l1) * (115 # 100)
    /\ (Permutation l1 l2 ->
        subtotal (calculateTotals l1) == subtotal (calculateTotals l2)
        /\ tax (calculateTotals l1) == tax (calculateTotals l2)
        /\ total (calculateTotals l1) == total (calculateTotals l2)).
Proof.
  intros l1 l2. split; [| split].
  - rewrite !subtotal_sum_over. unfold Spec.sum_over. rewrite map_app.
    induction (map lineTotal l1) as [|x r IH]; simpl; [ring | rewrite IH; ring].
  - unfold calculateTotals. cbn [subtotal tax total]. ring.
  - intro HP.
    assert (Hs : subtotal (calculateTotals l1) == subtotal (calculateTotals l2)).
    { rewrite !subtotal_sum_over. unfold Spec.sum_over.
      induction HP as [| x l l' _ IH | x y l | l l' l'' _ IH1 _ IH2]; simpl.
      - reflexivity.
      - rewrite IH. reflexivity.
      - ring.
      - rewrite IH1. exact IH2. }
    unfold calculateTotals in *. cbn [subtotal tax total] in *.
    split; [exact Hs | split]; rewrite Hs; reflexivity.
Qed.

Lemma calculateTotals_algebra_witness :
  total (calculateTotals [Samples.one_at_100; Samples.two_at_100])
  == total (calculateTotals [Samples.two_at_100; Samples.one_at_100]).
Proof.
  apply (proj2 (proj2 (calculateTotals_algebra
                         [Samples.one_at_100; Samples.two_at_100]
                         [Samples.two_at_100; Samples.one_at_100]))).
  apply perm_swap.
Defined.

(** X4. When no line has a negative price or a negative quantity, the
    subtotal, the tax and the total are not negative and the total is at
    least the subtotal. *)
Theorem calculateTotals_nonnegative :
  forall l : list OrderItem,
    Forall (fun item => 0 <= unit_price item /\ 0 <= quantity item) l ->
    0 <= subtotal (calculateTotals l)
    /\ 0 <= tax (calculateTotals l)
    /\ subtotal (calculateTotals l) <= total (calculateTotals l).
Proof.
  intros l H.
  assert (Hs : 0 <= subtotal (calculateTotals l)).
  { rewrite subtotal_sum_over. unfold Spec.sum_over.
    induction H as [|x r [Hp Hq] _ IH]; simpl.
    - apply Qle_refl.
    - unfold lineTotal at 1.
      pose proof (Qmult_le_0_compat _ _ Hp Hq). lra. }
  unfold calculateTotals in *. cbn [subtotal tax total] in *.
  split; [exact Hs | split]; lra.
Qed.

Lemma calculateTotals_nonnegative_witness :
  0 <= subtotal (calculateTotals [Samples.one_at_100; Samples.two_at_100])
  /\ 0 <= tax (calculateTotals [Samples.one_at_100; Samples.two_at_100])
  /\ subtotal (calculateTotals [Samples.one_at_100; Samples.two_at_100])
     <= total (calculateTotals [Samples.one_at_100; Samples.two_at_100]).
Proof.
  apply (calculateTotals_nonnegative [Samples.one_at_100; Samples.two_at_100]).
  repeat constructor; simpl; discriminate.
Defined.

(** ** What every sequence of events keeps *)

Lemma nonzero_whole_one : nonzero_whole 1.
Proof.
  exists 1%Z. split; [discriminate | reflexivity].
Qed.

Lemma handleAddItem_invariant (now : Z) (st : State) :
  page_invariant st -> page_invariant (handleAddItem now st).
Proof.
  intros [Ho [Hn [Hq Hl]]].
  destruct (JS.truthy (form_menu_item_id (newOrderItem st))) eqn:T;
    [destruct (menuEntry (form_menu_item_id (newOrderItem st))) as [entry|] eqn:E |].
  - rewrite (handleAddItem_orderItems now st entry E).
    unfold page_invariant. simpl.
    split; [exact Ho | split; [reflexivity | split; [exact nonzero_whole_one |]]].
    apply Forall_app. split; [exact Hl |].
    constructor; [| constructor].
    unfold menu_line. simpl. rewrite Ho.
    repeat split; try assumption.
    exists entry. repeat split. exact E.
  - unfold handleAddItem. cbv zeta. rewrite T. cbn [negb].
    unfold menuEntry in E. rewrite E.
    unfold page_invariant. tauto.
  - unfold handleAddItem. cbv zeta. rewrite T. cbn [negb].
    unfold page_invariant. tauto.
Qed.

Lemma step_invariant (e : Event) (st : State) :
  page_invariant st -> page_invariant (step e st).
Proof.
  intro H. pose proof H as [Ho [Hn [Hq Hl]]].
  destruct e as [v | table | value | parsed | now | now item | itemId | | |]; simpl.
  - exact H.
  - unfold page_invariant. simpl. repeat split; try assumption. constructor.
  - unfold page_invariant. simpl. repeat split; assumption.
  - unfold page_invariant. simpl. repeat split; try assumption.
    destruct parsed as [z|]; [| exact nonzero_whole_one].
    destruct (Z.eqb z 0) eqn:Ez; [exact nonzero_whole_one |].
    apply Z.eqb_neq in Ez. exists z. split; [exact Ez | reflexivity].
  - apply handleAddItem_invariant. exact H.
  - unfold cardAdd. cbv zeta.
    destruct (negb (JS.truthy (form_menu_item_id (newOrderItem st)))).
    + unfold page_invariant. simpl. repeat split; assumption.
    + destruct (JS.find _ menuItems).
      * apply handleAddItem_invariant. exact H.
      * unfold page_invariant. simpl. repeat split; assumption.
  - unfold page_invariant. simpl. repeat split; try assumption.
    rewrite Forall_forall in *. intros x Hx. apply filter_In in Hx. apply Hl. tauto.
  - exact H.
  - exact H.
  - exact H.
Qed.

(** X5. From the page as it starts, after any sequence of events no order
    is loaded, and every line of the order has the order id new, the status
    new, empty notes, a whole quantity other than zero, and the name and
    the price the menu gives for its menu item. *)
Theorem page_lines_follow_menu :
  forall es : list Event,
    let st := run es initialState in
    currentOrder st = None
    /\ Forall (fun item =>
                 order_id item = "new"%string
                 /\ item_status item = i_new
                 /\ notes item = ""%string
                 /\ (exists z : Z, z <> 0%Z /\ quantity item = inject_Z z)
                 /\ exists entry,
                     In entry menuItems
                     /\ entry_id entry = menu_item_id item
                     /\ menu_item_name item = entry_name entry
                     /\ unit_price item = price entry)
              (orderItems st).
Proof.
  intros es st.
  assert (H : page_invariant st).
  { subst st. unfold run.
    assert (H0 : page_invariant initialState).
    { unfold page_invariant. simpl.
      repeat split; try reflexivity; [exact nonzero_whole_one | constructor]. }
    revert H0. generalize initialState.
    induction es as [|e es IH]; intros s Hs; simpl.
    - exact Hs.
    - apply IH. apply step_invariant. exact Hs. }
  destruct H as [Ho [_ [_ Hl]]]. split; [exact Ho |].
  rewrite Forall_forall in *. intros item Hi.
  destruct (Hl item Hi) as [H1 [H2 [H3 [H4 [entry [He [Hn Hp]]]]]]].
  repeat split; try assumption.
  exists entry. unfold menuEntry, JS.find in He. apply find_some in He.
  destruct He as [Hin Heq]. apply String.eqb_eq in Heq. tauto.
Qed.

(** X6. The Add button of a menu card does not add that card's item.
    With nothing chosen in the form it adds no line and only puts the
    card's item in the form; the next press of a card's Add button then
    adds the line of the item chosen before, not of the card pressed, and
    empties the form. *)
Theorem cardAdd_adds_previous_choice :
  forall (t1 t2 : Z) (first second entry : MenuEntry) (st : State),
    form_menu_item_id (newOrderItem st) = ""%string ->
    menuEntry (entry_id first) = Some entry ->
    let once := cardAdd t1 first st in
    let twice := cardAdd t2 second once in
    orderItems once = orderItems st
    /\ form_menu_item_id (newOrderItem once) = entry_id first
    /\ (exists line,
          orderItems twice = orderItems st ++ [line]
          /\ menu_item_id line = entry_id first
          /\ menu_item_name line = entry_name entry
          /\ unit_price line = price entry)
    /\ form_menu_item_id (newOrderItem twice) = ""%string.
Proof.
  intros t1 t2 first second entry st Hempty Hfirst once twice.
  assert (E1 : once
               = setNewOrderItem (mkNewOrderItem (entry_id first)
                                    (form_quantity (newOrderItem st))
                                    (form_notes (newOrderItem st))) st).
  { subst once. unfold cardAdd. cbv zeta. rewrite Hempty. reflexivity. }
  assert (E2 : twice = handleAddItem t2 once).
  { subst twice. unfold cardAdd. cbv zeta.
    rewrite E1. cbn [newOrderItem setNewOrderItem form_menu_item_id].
    rewrite (menuEntry_truthy _ _ Hfirst). cbn [negb].
    unfold menuEntry in Hfirst. rewrite Hfirst. reflexivity. }
  rewrite (handleAddItem_orderItems t2 once entry) in E2
    by (rewrite E1; exact Hfirst).
  rewrite E2. rewrite E1. simpl.
  split; [reflexivity | split; [reflexivity | split; [| reflexivity]]].
  eexists. split; [reflexivity |]. simpl. repeat split.
Qed.

Lemma cardAdd_adds_previous_choice_witness :
  exists line,
    orderItems (cardAdd 2 (mkMenuEntry "1" "Beef Burger" 250 "Burgers")
                  (cardAdd 1 (mkMenuEntry "3" "Coke 330ml" 40 "Drinks") initialState))
    = orderItems initialState ++ [line]
    /\ menu_item_name line = "Coke 330ml"%string.
Proof.
  destruct (cardAdd_adds_previous_choice 1 2
              (mkMenuEntry "3" "Coke 330ml" 40 "Drinks")
              (mkMenuEntry "1" "Beef Burger" 250 "Burgers")
              (mkMenuEntry "3" "Coke 330ml" 40 "Drinks")
              initialState eq_refl eq_refl)
    as [_ [_ [[line [H1 [_ [H2 _]]]] _]]].
  exists line. split; [exact H1 | exact H2].
Defined.

End PointOfSale.

(** ** The waiter's screen *)

Section WaiterScreen.

Import OrderScreen Lines ScreenNotions.

Lemma addAll_in (seen values : list string) (c : string) :
  In c (addAll seen values) <-> In c seen \/ In c values.
Proof.
  revert seen. induction values as [|v r IH]; intro seen; simpl.
  - tauto.
  - rewrite IH. destruct (existsb (String.eqb v) seen) eqn:E.
    + apply existsb_exists in E. destruct E as [x [Hx Hv]].
      apply String.eqb_eq in Hv. subst x.
      split; [tauto |]. intros [H | [H | H]]; [tauto | subst; tauto | tauto].
    + rewrite in_app_iff. simpl. tauto.
Qed.

Lemma addAll_nodup (seen values : list string) :
  NoDup seen -> NoDup (addAll seen values).
Proof.
  revert seen. induction values as [|v r IH]; intros seen Hn; simpl.
  - exact Hn.
  - apply IH. destruct (existsb (String.eqb v) seen) eqn:E; [exact Hn |].
    apply nodup_snoc; [exact Hn |].
    intro Hin. assert (Ht : existsb (String.eqb v) seen = true).
    { apply existsb_exists. exists v. split; [exact Hin | apply String.eqb_refl]. }
    congruence.
Qed.

(** X7. For any menu, the category tabs after All list each category of
    the menu once; the All tab shows the whole menu, any other tab shows
    the items of its category and no others, and every item is shown
    under the tab of its own category. *)
Theorem category_tabs :
  forall menu : list MenuItem,
    NoDup (tl (categoriesOf menu))
    /\ (forall c, In c (tl (categoriesOf menu))
                  <-> exists item, In item menu /\ item_category item = c)
    /\ filteredOf menu "All" = menu
    /\ (forall c item,
          c <> "All"%string ->
          (In item (filteredOf menu c) <-> In item menu /\ item_category item = c))
    /\ (forall item,
          In item menu ->
          In (item_category item) (categoriesOf menu)
          /\ In item (filteredOf menu (item_category item))).
Proof.
  intro menu. unfold categoriesOf, setOf. simpl.
  split; [| split; [| split; [| split]]].
  - apply addAll_nodup. constructor.
  - intro c. rewrite addAll_in, in_map_iff. simpl. split.
    + intros [[] | [item [Hc Hi]]]. exists item. tauto.
    + intros [item [Hi Hc]]. right. exists item. tauto.
  - reflexivity.
  - intros c item Hc. unfold filteredOf.
    apply String.eqb_neq in Hc. rewrite Hc.
    rewrite filter_In, String.eqb_eq. reflexivity.
  - intros item Hi. split.
    + right. apply addAll_in. right. apply in_map. exact Hi.
    + unfold filteredOf. destruct (String.eqb (item_category item) "All"); [exact Hi |].
      apply filter_In. split; [exact Hi | apply String.eqb_refl].
Qed.

Lemma category_tabs_witness :
  In (mkMenuItem "3" "Coke 330ml" 40 "Drinks") (filteredMenuItems "Drinks").
Proof.
  apply (proj2 (proj2 (proj2 (proj2 (category_tabs menuItems))))
               (mkMenuItem "3" "Coke 330ml" 40 "Drinks")).
  simpl. right. right. left. reflexivity.
Defined.

Lemma calculateTotal_sum_over (l : list OrderItem) :
  calculateTotal l == Spec.sum_over linePrice l.
Proof.
  unfold calculateTotal. apply reduce_sum.
Qed.

Lemma requantify_absent (itemId : string) (g : Q -> Q) (l : list OrderItem) :
  ~ In itemId (map id l) -> map (requantify itemId g) l = l.
Proof.
  induction l as [|x r IH]; simpl; intro H.
  - reflexivity.
  - unfold requantify at 1. destruct (String.eqb (id x) itemId) eqn:E.
    + apply String.eqb_eq in E. tauto.
    + f_equal. apply IH. tauto.
Qed.

Lemma sum_requantify (itemId : string) (g : Q -> Q) (l : list OrderItem)
      (line : OrderItem) :
  NoDup (map id l) ->
  JS.find (has_id itemId) l = Some line ->
  Spec.sum_over linePrice (map (requantify itemId g) l)
  == Spec.sum_over linePrice l + price line * (g (quantity line) - quantity line).
Proof.
  unfold JS.find, Spec.sum_over.
  induction l as [|x r IH]; simpl; intros Hn Hf.
  - discriminate Hf.
  - inversion Hn as [|? ? Hx Hr]; subst.
    unfold has_id in Hf at 1. unfold requantify at 1.
    destruct (String.eqb (id x) itemId) eqn:E.
    + injection Hf as Hf. subst x. apply String.eqb_eq in E.
      rewrite requantify_absent by (rewrite <- E; exact Hx).
      unfold linePrice at 1 3. simpl. ring.
    + rewrite (IH Hr Hf). ring.
Qed.

Lemma sum_without (itemId : string) (l : list OrderItem) (line : OrderItem) :
  NoDup (map id l) ->
  JS.find (has_id itemId) l = Some line ->
  Spec.sum_over linePrice (without itemId l)
  == Spec.sum_over linePrice l - price line * quantity line.
Proof.
  unfold JS.find, Spec.sum_over, without.
  induction l as [|x r IH]; simpl; intros Hn Hf.
  - discriminate Hf.
  - inversion Hn as [|? ? Hx Hr]; subst.
    unfold has_id in Hf at 1.
    destruct (String.eqb (id x) itemId) eqn:E; simpl.
    + injection Hf as Hf. subst x. apply String.eqb_eq in E.
      fold (without itemId r).
      rewrite without_absent.
      * unfold linePrice at 2. ring.
      * destruct (JS.find (has_id itemId) r) as [e|] eqn:Er; [| reflexivity].
        apply find_some_id in Er. destruct Er as [He Hid].
        exfalso. apply Hx. rewrite E, <- Hid. apply in_map. exact He.
    + rewrite (IH Hr Hf). ring.
Qed.

(** X8. On the waiter's screen the total follows the presses: from the
    empty order, after any sequence of presses, pressing plus for an item
    raises the total by the price of the item's line, or by the item's
    price when it has no line yet, and pressing minus lowers the total by
    the price of the line, or leaves it when there is no line. *)
Theorem total_follows_presses :
  forall (ps : list Press) (item : MenuItem) (itemId : string),
    let orderItems := presses ps [] in
    calculateTotal (addToOrder item orderItems)
    == calculateTotal orderItems
       + match JS.find (fun line => String.eqb (id line) (item_id item)) orderItems with
         | Some line => price line
         | None => item_price item
         end
    /\ calculateTotal (removeFromOrder itemId orderItems)
       == calculateTotal orderItems
          - match JS.find (fun line => String.eqb (id line) itemId) orderItems with
            | Some line => price line
            | None => 0
            end.
Proof.
  intros ps item itemId orderItems.
  assert (Hwf : well_formed orderItems).
  { apply presses_well_formed. exact empty_well_formed. }
  destruct Hwf as [Hn Hq]. rewrite !calculateTotal_sum_over. split.
  - rewrite addToOrder_eq. fold (has_id (item_id item)).
    destruct (JS.find (has_id (item_id item)) orderItems) as [line|] eqn:E.
    + rewrite (sum_requantify _ _ _ line Hn E). ring.
    + unfold Spec.sum_over. rewrite map_app. simpl.
      induction (map linePrice orderItems) as [|x r IH]; simpl.
      * unfold linePrice. simpl. ring.
      * rewrite IH. ring.
  - rewrite removeFromOrder_eq. fold (has_id itemId).
    destruct (JS.find (has_id itemId) orderItems) as [line|] eqn:E.
    + destruct (JS.gtb (quantity line) 1) eqn:G.
      * rewrite (sum_requantify _ _ _ line Hn E). ring.
      * rewrite (sum_without _ _ line Hn E).
        assert (H1 : quantity line == 1).
        { apply is_count_not_gt; [| exact G].
          apply find_some_id in E. rewrite Forall_forall in Hq. apply Hq. tauto. }
        rewrite H1. ring.
    + rewrite (without_absent _ _ E). ring.
Qed.

(** X9. Plus and then minus for the same item give the order back.  When
    the item had no line the list is the one before; when it had one, on
    an order reached by presses from the empty order, the line keeps its
    place with its quantity raised and lowered by 1, and the other lines
    are as before. *)
Theorem plus_then_minus :
  forall (ps : list Press) (item : MenuItem) (l : list OrderItem),
    (quantityOf (item_id item) l = None ->
     removeFromOrder (item_id item) (addToOrder item l) = l)
    /\ let orderItems := presses ps [] in
       forall q,
         quantityOf (item_id item) orderItems = Some q ->
         quantityOf (item_id item)
           (removeFromOrder (item_id item) (addToOrder item orderItems))
         = Some (q + 1 - 1)
         /\ map id (removeFromOrder (item_id item) (addToOrder item orderItems))
            = map id orderItems
         /\ forall j, j <> item_id item ->
                      quantityOf j (removeFromOrder (item_id item)
                                      (addToOrder item orderItems))
                      = quantityOf j orderItems.
Proof.
  intros ps item l. split.
  - intro Hnone. unfold quantityOf in Hnone. fold (has_id (item_id item)) in Hnone.
    destruct (JS.find (has_id (item_id item)) l) as [e|] eqn:E; [discriminate Hnone |].
    rewrite addToOrder_eq, E, removeFromOrder_eq, find_snoc, E.
    unfold has_id at 1. simpl. rewrite String.eqb_refl. simpl.
    unfold without. rewrite filter_app. fold (without (item_id item) l).
    rewrite (without_absent _ _ E). simpl. rewrite String.eqb_refl. simpl.
    apply app_nil_r.
  - intros orderItems q Hq.
    assert (Hwf : well_formed orderItems).
    { apply presses_well_formed. exact empty_well_formed. }
    pose proof (is_count_ge_1 q (quantityOf_count _ _ _ Hwf Hq)) as Hq1.
    pose proof (addToOrder_effect item orderItems) as [Ha Hao].
    rewrite Hq in Ha. destruct Ha as [Ha Hids].
    pose proof (removeFromOrder_effect (item_id item) (addToOrder item orderItems))
      as [Hr Hro].
    rewrite Ha in Hr. destruct Hr as [Hgt _].
    destruct Hgt as [Hr1 Hr2]; [lra |].
    split; [exact Hr1 | split].
    + rewrite Hr2. exact Hids.
    + intros j Hj. rewrite (Hro j Hj). apply Hao. exact Hj.
Qed.

Lemma plus_then_minus_witness :
  quantityOf "1"
    (removeFromOrder "1"
       (addToOrder (mkMenuItem "1" "Beef Burger" 250 "Burgers")
                   (presses Samples.three_presses [])))
  = Some (1 + 1 + 1 - 1).
Proof.
  apply (proj2 (plus_then_minus Samples.three_presses
                  (mkMenuItem "1" "Beef Burger" 250 "Burgers") [])).
  reflexivity.
Defined.

End WaiterScreen.

(** ** The inventory page *)

Section InventoryPage.

Import Inventory.

(** X10. The status cell sorts an item by its stock against its minimum
    and against the product [min_stock * 1.5] as the language computes it:
    Warning is shown exactly when the stock is above the minimum and at
    most that product, OK exactly when it is above both.  An item whose
    product does not exceed its minimum, as with a minimum of zero, is
    never in Warning; and with the same minimum more stock never gives a
    worse status. *)
Theorem stockStatus_thresholds :
  forall (times : Q -> Q -> Q) (item other : InventoryItem),
    (stockStatus times item = Warning
     <-> min_stock item < current_stock item
         /\ current_stock item <= times (min_stock item) (15 # 10))
    /\ (stockStatus times item = OK
        <-> min_stock item < current_stock item
            /\ times (min_stock item) (15 # 10) < current_stock item)
    /\ (times (min_stock item) (15 # 10) <= min_stock item ->
        stockStatus times item <> Warning)
    /\ (min_stock item = min_stock other ->
        current_stock item <= current_stock other ->
        (stockStatus times other = LowStock -> stockStatus times item = LowStock)
        /\ (stockStatus times item = OK -> stockStatus times other = OK)).
Proof.
  intros times item other.
  assert (Hc : forall i : InventoryItem,
             (stockStatus times i = LowStock /\ current_stock i <= min_stock i)
             \/ (stockStatus times i = Warning /\ min_stock i < current_stock i
                 /\ current_stock i <= times (min_stock i) (15 # 10))
             \/ (stockStatus times i = OK /\ min_stock i < current_stock i
                 /\ times (min_stock i) (15 # 10) < current_stock i)).
  { intro i. unfold stockStatus.
    destruct (Qle_bool (current_stock i) (min_stock i)) eqn:E1.
    - left. apply Qle_bool_iff in E1. tauto.
    - assert (H1 : min_stock i < current_stock i).
      { apply Qnot_le_lt. intro L. apply Qle_bool_iff in L. congruence. }
      destruct (Qle_bool (current_stock i) (times (min_stock i) (15 # 10))) eqn:E2.
      + right. left. apply Qle_bool_iff in E2. tauto.
      + right. right. split; [reflexivity | split; [exact H1 |]].
        apply Qnot_le_lt. intro L. apply Qle_bool_iff in L. congruence. }
  split; [| split; [| split]].
  - destruct (Hc item) as [[Hs H] | [[Hs H] | [Hs H]]]; rewrite Hs;
      split; try discriminate; try tauto; intros [A B]; exfalso; lra.
  - destruct (Hc item) as [[Hs H] | [[Hs H] | [Hs H]]]; rewrite Hs;
      split; try discriminate; try tauto; intros [A B]; exfalso; lra.
  - intros Hm Hw.
    destruct (Hc item) as [[Hs H] | [[Hs H] | [Hs H]]]; rewrite Hs in Hw;
      try discriminate Hw. lra.
  - intros Hm Hle. split; intro Hs.
    + destruct (Hc other) as [[Ho H] | [[Ho H] | [Ho H]]]; rewrite Ho in Hs;
        try discriminate Hs.
      destruct (Hc item) as [[Hi H'] | [[Hi H'] | [Hi H']]]; [exact Hi | |];
        exfalso; rewrite Hm in H'; lra.
    + destruct (Hc item) as [[Hi H] | [[Hi H] | [Hi H]]]; rewrite Hi in Hs;
        try discriminate Hs.
      destruct (Hc other) as [[Ho H'] | [[Ho H'] | [Ho H']]]; [| | exact Ho];
        exfalso; rewrite Hm in H; lra.
Qed.

Lemma stockStatus_thresholds_witness :
  stockStatus Qmult
    (mkInventoryItem "5" "Salt" "Raw Materials" 2 "kg" 10 0 "Salt Co." "Dry")
  <> Warning.
Proof.
  apply (proj1 (proj2 (proj2 (stockStatus_thresholds Qmult
           (mkInventoryItem "5" "Salt" "Raw Materials" 2 "kg" 10 0 "Salt Co." "Dry")
           Samples.at_minimum)))).
  simpl. discriminate.
Defined.

(** X11. Opening the dialog on an item and submitting it untouched prints
    the item's own values and leaves the dialog closed, as long as
    [parseFloat] reads back what [toString] printed for its three numbers.
    Opened for adding, or for editing without an item, the dialog starts
    from the empty form with no current item, even when an item is
    passed along with the add mode. *)
Theorem edit_dialog_round_trip :
  forall (parseFloat : string -> option Q) (Number_toString : Q -> string)
         (mode : DialogMode) (item : InventoryItem) (st : State),
    (parseFloat (Number_toString (current_stock item)) = Some (current_stock item) ->
     parseFloat (Number_toString (unit_cost item)) = Some (unit_cost item) ->
     parseFloat (Number_toString (min_stock item)) = Some (min_stock item) ->
     let r := handleSubmit parseFloat
                (handleOpenDialog Number_toString edit (Some item) st) in
     fst r = mkLogged (name item) (category item) (Some (current_stock item))
                      (unit item) (Some (unit_cost item)) (Some (min_stock item))
                      (supplier item) (category_type item)
     /\ openDialog (snd r) = false
     /\ currentItem (snd r) = Some item)
    /\ form (handleOpenDialog Number_toString add (Some item) st) = emptyForm
    /\ currentItem (handleOpenDialog Number_toString add (Some item) st) = None
    /\ form (handleOpenDialog Number_toString mode None st) = emptyForm
    /\ currentItem (handleOpenDialog Number_toString mode None st) = None
    /\ dialogMode (handleOpenDialog Number_toString mode None st) = mode.
Proof.
  intros parseFloat Number_toString mode item st. split.
  - intros H1 H2 H3 r. subst r. unfold handleSubmit. simpl.
    rewrite H1, H2, H3. repeat split.
  - repeat split; destruct mode; reflexivity.
Qed.

Lemma edit_dialog_round_trip_witness :
  fst (handleSubmit parseDigits
         (handleOpenDialog printWhole edit (Some Samples.at_minimum) initialState))
  = mkLogged "Cheese" "Raw Materials" (Some 5) "kg" (Some 450) (Some 5)
             "Dairy Farm" "Dairy".
Proof.
  apply (proj1 (edit_dialog_round_trip parseDigits printWhole edit
                  Samples.at_minimum initialState) eq_refl eq_refl eq_refl).
Defined.

End InventoryPage.

(** ** The menu slice *)

Section MenuSlice.

Import Menu MenuThunks.

Lemma replaceFirst_ids (payload : MenuItem) (l : list MenuItem) :
  map id (replaceFirst payload l) = map id l.
Proof.
  induction l as [|x r IH]; simpl.
  - reflexivity.
  - destruct (String.eqb (id x) (id payload)) eqn:E; simpl.
    + apply String.eqb_eq in E. congruence.
    + f_equal. exact IH.
Qed.

Lemma replaceFirst_absent (payload : MenuItem) (l : list MenuItem) :
  ~ In (id payload) (map id l) -> replaceFirst payload l = l.
Proof.
  induction l as [|x r IH]; simpl; intro H.
  - reflexivity.
  - destruct (String.eqb (id x) (id payload)) eqn:E.
    + apply String.eqb_eq in E. tauto.
    + f_equal. apply IH. tauto.
Qed.

Lemma replaceFirst_itemOf (payload : MenuItem) (l : list MenuItem) (j : string) :
  itemOf j (replaceFirst payload l)
  = if String.eqb j (id payload)
    then match itemOf j l with Some _ => Some payload | None => None end
    else itemOf j l.
Proof.
  unfold itemOf, JS.find. induction l as [|x r IH]; simpl.
  - destruct (String.eqb j (id payload)); reflexivity.
  - destruct (String.eqb (id x) (id payload)) eqn:E; simpl.
    + apply String.eqb_eq in E. rewrite E.
      rewrite (String.eqb_sym (id payload) j).
      destruct (String.eqb j (id payload)); reflexivity.
    + destruct (String.eqb (id x) j) eqn:Ej.
      * apply String.eqb_eq in Ej. subst j. rewrite E. reflexivity.
      * exact IH.
Qed.

Lemma replaceFirst_found (payload : MenuItem) (l : list MenuItem) :
  In (id payload) (map id l) ->
  itemOf (id payload) (replaceFirst payload l) = Some payload.
Proof.
  intro Hin. rewrite replaceFirst_itemOf, String.eqb_refl.
  destruct (itemOf (id payload) l) eqn:E; [reflexivity |].
  exfalso. apply in_map_iff in Hin. destruct Hin as [x [Hx Hi]].
  unfold itemOf, JS.find in E.
  apply (find_none _ _ E) in Hi. rewrite Hx, String.eqb_refl in Hi. discriminate Hi.
Qed.

Lemma replaceFirst_split (payload x : MenuItem) (pre post : list MenuItem) :
  id x = id payload ->
  ~ In (id payload) (map id pre) ->
  replaceFirst payload (pre ++ x :: post) = pre ++ payload :: post.
Proof.
  intros Hx. induction pre as [|y r IH]; simpl; intro Hpre.
  - rewrite Hx, String.eqb_refl. reflexivity.
  - destruct (String.eqb (id y) (id payload)) eqn:E.
    + apply String.eqb_eq in E. tauto.
    + f_equal. apply IH. tauto.
Qed.

(** X12. A fulfilled update replaces the first item that has the id of
    the payload and nothing else: when the items are [pre], an item of the
    payload's id and [post], no item of [pre] having that id, they become
    [pre], the payload and [post], so a later item of the same id stays as
    it is.  The ids of the table are as before, looking the id up gives
    the payload, every other id gives what it gave before, and a payload
    whose id is not in the table changes nothing. *)
Theorem update_replaces_by_id :
  forall (state : MenuState) (payload : MenuItem),
    let state' := reducer state (updateMenuItem_fulfilled payload) in
    (forall pre x post,
        items state = pre ++ x :: post ->
        id x = id payload ->
        ~ In (id payload) (map id pre) ->
        items state' = pre ++ payload :: post)
    /\ map id (items state') = map id (items state)
    /\ (In (id payload) (map id (items state)) ->
        itemOf (id payload) (items state') = Some payload)
    /\ (forall j, j <> id payload ->
                  itemOf j (items state') = itemOf j (items state))
    /\ (~ In (id payload) (map id (items state)) -> state' = state)
    /\ categories state' = categories state
    /\ loading state' = loading state
    /\ error state' = error state.
Proof.
  intros state payload state'. subst state'. simpl.
  split; [| split; [apply replaceFirst_ids | split; [| split; [| split]]]].
  - intros pre x post Hi Hx Hpre. rewrite Hi. apply replaceFirst_split; assumption.
  - apply replaceFirst_found.
  - intros j Hj. rewrite replaceFirst_itemOf.
    apply String.eqb_neq in Hj. rewrite Hj. reflexivity.
  - intro H. rewrite (replaceFirst_absent _ _ H). destruct state; reflexivity.
  - repeat split.
Qed.

Lemma update_replaces_by_id_witness :
  itemOf "1"
    (items (reducer (mkMenuState [] [Samples.burger_250_100] false None)
                    (updateMenuItem_fulfilled
                       (mkMenuItem "1" "Beef Burger" "" 300 100 "c1" "Burgers" true None None None))))
  = Some (mkMenuItem "1" "Beef Burger" "" 300 100 "c1" "Burgers" true None None None).
Proof.
  apply (proj1 (proj2 (proj2 (update_replaces_by_id
                         (mkMenuState [] [Samples.burger_250_100] false None)
                         (mkMenuItem "1" "Beef Burger" "" 300 100 "c1" "Burgers"
                                     true None None None))))).
  simpl. left. reflexivity.
Defined.

Lemma delete_absent (itemId : string) (l : list MenuItem) :
  ~ In itemId (map id l) ->
  filter (fun item => negb (String.eqb (id item) itemId)) l = l.
Proof.
  induction l as [|x r IH]; simpl; intro H.
  - reflexivity.
  - destruct (String.eqb (id x) itemId) eqn:E; simpl.
    + apply String.eqb_eq in E. tauto.
    + f_equal. apply IH. tauto.
Qed.

(** X13. A fulfilled delete drops every item of the id and keeps the
    others in their order, so the id is no longer found and every other id
    gives what it gave before; deleting an item just added under an id the
    table did not have gives the table back. *)
Theorem delete_removes_by_id :
  forall (state : MenuState) (itemId : string) (payload : MenuItem),
    let state' := reducer state (deleteMenuItem_fulfilled itemId) in
    itemOf itemId (items state') = None
    /\ (forall item, In item (items state')
                     <-> In item (items state) /\ id item <> itemId)
    /\ (forall j, j <> itemId -> itemOf j (items state') = itemOf j (items state))
    /\ (~ In (id payload) (map id (items state)) ->
        items (reducer (reducer state (addMenuItem_fulfilled payload))
                       (deleteMenuItem_fulfilled (id payload)))
        = items state).
Proof.
  intros state itemId payload state'. subst state'. simpl.
  split; [| split; [| split]].
  - unfold itemOf, JS.find.
    induction (items state) as [|x r IH]; simpl; [reflexivity |].
    destruct (String.eqb (id x) itemId) eqn:E; simpl; [exact IH |].
    rewrite E. exact IH.
  - intro item. rewrite filter_In, negb_true_iff, String.eqb_neq. reflexivity.
  - intros j Hj. unfold itemOf, JS.find.
    induction (items state) as [|x r IH]; simpl; [reflexivity |].
    destruct (String.eqb (id x) itemId) eqn:E; simpl.
    + apply String.eqb_eq in E.
      assert (En : String.eqb (id x) j = false) by (apply String.eqb_neq; congruence).
      rewrite En. exact IH.
    + destruct (String.eqb (id x) j); [reflexivity | exact IH].
  - intro H. rewrite filter_app, (delete_absent _ _ H). simpl.
    rewrite String.eqb_refl. simpl. apply app_nil_r.
Qed.

Lemma delete_removes_by_id_witness :
  items (reducer (reducer initialState (addMenuItem_fulfilled Samples.burger_250_100))
                 (deleteMenuItem_fulfilled "1"))
  = items initialState.
Proof.
  apply (proj2 (proj2 (proj2 (delete_removes_by_id initialState "1"
                                Samples.burger_250_100)))).
  simpl. tauto.
Defined.

(** X14. Only fulfilled actions change the items and the categories.  A
    rejection stores exactly its message as the error.  A fulfilled add,
    update or delete leaves the error, the loading flag and the categories
    as they were, so the message of a failed save is still there after any
    later save succeeds, until [clearError] or the start of a fetch
    removes it. *)
Theorem reducer_error_persists :
  forall (state : MenuState) (a save : Action) (message : string),
    (isFulfilled a = false ->
     items (reducer state a) = items state
     /\ categories (reducer state a) = categories state)
    /\ (rejectionOf a = Some message ->
        error (reducer state a) = Some message)
    /\ (isSave save = true ->
        error (reducer state save) = error state
        /\ loading (reducer state save) = loading state
        /\ categories (reducer state save) = categories state)
    /\ (rejectionOf a = Some message -> isSave save = true ->
        error (reducer (reducer state a) save) = Some message)
    /\ error (reducer state clearError) = None
    /\ error (reducer state fetchMenuItems_pending) = None
    /\ error (reducer state fetchCategories_pending) = None.
Proof.
  intros state a save message.
  assert (Hrej : rejectionOf a = Some message ->
                 error (reducer state a) = Some message).
  { destruct a; simpl; intro H; try discriminate H; injection H as H; subst;
      reflexivity. }
  assert (Hsave : forall st, isSave save = true ->
                  error (reducer st save) = error st
                  /\ loading (reducer st save) = loading st
                  /\ categories (reducer st save) = categories st).
  { intros st. destruct save; simpl; intro H; try discriminate H; repeat split. }
  split; [| split; [exact Hrej | split; [apply Hsave | split; [| repeat split]]]].
  - destruct a; simpl; intro H; try discriminate H; split; reflexivity.
  - intros Hr Hs. rewrite (proj1 (Hsave _ Hs)). exact (Hrej Hr).
Qed.

Lemma reducer_error_persists_witness :
  error (reducer (reducer initialState (updateMenuItem_rejected "Failed to update menu item"))
                 (deleteMenuItem_fulfilled "1"))
  = Some "Failed to update menu item"%string.
Proof.
  apply (proj1 (proj2 (proj2 (proj2 (reducer_error_persists initialState
                  (updateMenuItem_rejected "Failed to update menu item")
                  (deleteMenuItem_fulfilled "1")
                  "Failed to update menu item")))) eq_refl eq_refl).
Defined.

End MenuSlice.

(** ** Saving a menu item *)

Section MenuSaving.

Import Menu MenuThunks.

Lemma guarded_without_token {A : Type} (token : option string) (fallback : string)
      (request : string -> Request) (call : Request -> Result A)
      (fulfilled : A -> Action) (rejected : string -> Action) :
  token = None \/ token = Some ""%string ->
  guarded token fallback request call fulfilled rejected = ([], rejected fallback).
Proof.
  intros [H | H]; subst token; reflexivity.
Qed.

Lemma guarded_with_token {A : Type} (t : string) (fallback : string)
      (request : string -> Request) (call : Request -> Result A)
      (fulfilled : A -> Action) (rejected : string -> Action) :
  JS.truthy t = true ->
  guarded (Some t) fallback request call fulfilled rejected
  = ([request ("Bearer " ++ t)%string],
     match call (request ("Bearer " ++ t)%string) with
     | Success data => fulfilled data
     | Failure detail => rejected (detail_or detail fallback)
     end).
Proof.
  intro H. unfold guarded. rewrite H. reflexivity.
Qed.

Lemma detail_or_truthy (detail : option string) (fallback : string) :
  JS.truthy fallback = true -> JS.truthy (detail_or detail fallback) = true.
Proof.
  intro Hf. unfold detail_or, JS.or_else.
  destruct detail as [d|]; [| exact Hf].
  destruct (JS.truthy d) eqn:E; [exact E | exact Hf].
Qed.

Lemma guarded_well_behaved {A : Type} (token : option string) (fallback : string)
      (request : string -> Request) (call : Request -> Result A)
      (fulfilled : A -> Action) (rejected : string -> Action) :
  JS.truthy fallback = true ->
  (forall auth, authorization (request auth) = auth) ->
  (forall m, rejectionOf (rejected m) = Some m) ->
  (forall m, isRejected (rejected m) = true) ->
  (forall data, rejectionOf (fulfilled data) = None) ->
  well_behaved token (guarded token fallback request call fulfilled rejected).
Proof.
  intros Hf Hauth Hrej Hisrej Hful. unfold well_behaved.
  destruct token as [t|]; [destruct (JS.truthy t) eqn:T |].
  - rewrite guarded_with_token by exact T. cbn [fst snd].
    split; [simpl; lia | split; [| split]].
    + unfold usable. rewrite T. discriminate.
    + intros t' Ht' _. injection Ht' as Ht'. subst t'.
      eexists. split; [reflexivity | apply Hauth].
    + intros m Hm. destruct (call (request ("Bearer " ++ t)%string)) as [data|detail].
      * rewrite Hful in Hm. discriminate Hm.
      * rewrite Hrej in Hm. injection Hm as Hm. subst m.
        apply detail_or_truthy. exact Hf.
  - assert (E : guarded (Some t) fallback request call fulfilled rejected
                = ([], rejected fallback)).
    { unfold guarded. rewrite T. reflexivity. }
    rewrite E. cbn [fst snd].
    split; [simpl; lia | split; [| split]].
    + intros _. split; [reflexivity | apply Hisrej].
    + intros t' Ht' Htr. injection Ht' as Ht'. subst t'. congruence.
    + intros m Hm. rewrite Hrej in Hm. injection Hm as Hm. subst m. exact Hf.
  - cbn [guarded fst snd].
    split; [simpl; lia | split; [| split]].
    + intros _. split; [reflexivity | apply Hisrej].
    + intros t' Ht'. discriminate Ht'.
    + intros m Hm. rewrite Hrej in Hm. injection Hm as Hm. subst m. exact Hf.
Qed.

(** X15. Each of the five thunks of the slice sends at most one request.
    Without a token in [localStorage], or with an empty one, it sends none
    and is rejected with its own fallback message, so the text of the error
    thrown for the missing token never reaches the store.  With a token it
    sends exactly one request, to its own path, carrying the token as a
    bearer; an answer fulfils it with the data (the requested id for a
    delete) and a refusal rejects it with the detail of the response, or
    with the fallback when the detail is missing or empty.  The message of
    a rejection is never empty. *)
Theorem thunks_need_token :
  forall (token : option string) (server : Server) (itemData : ItemData)
         (itemId : string),
    Forall (well_behaved token) (allThunks token server itemData itemId)
    /\ (usable token = false ->
        allThunks token server itemData itemId
        = [ ([], fetchCategories_rejected "Failed to fetch categories");
            ([], fetchMenuItems_rejected "Failed to fetch menu items");
            ([], addMenuItem_rejected "Failed to add menu item");
            ([], updateMenuItem_rejected "Failed to update menu item");
            ([], deleteMenuItem_rejected "Failed to delete menu item") ])
    /\ (forall t, token = Some t -> JS.truthy t = true ->
        let auth := ("Bearer " ++ t)%string in
        let categoriesRequest := mkRequest GET "/api/v1/menu/categories" auth None in
        let itemsRequest := mkRequest GET "/api/v1/menu/items" auth None in
        let addRequest := mkRequest POST "/api/v1/menu/items" auth (Some itemData) in
        let updateRequest :=
          mkRequest PUT ("/api/v1/menu/items/" ++ itemId) auth (Some itemData) in
        let deleteRequest :=
          mkRequest DELETE ("/api/v1/menu/items/" ++ itemId) auth None in
        allThunks token server itemData itemId
        = [ ([categoriesRequest],
             report (getCategories server categoriesRequest)
                    fetchCategories_fulfilled fetchCategories_rejected
                    "Failed to fetch categories");
            ([itemsRequest],
             report (getItems server itemsRequest)
                    fetchMenuItems_fulfilled fetchMenuItems_rejected
                    "Failed to fetch menu items");
            ([addRequest],
             report (postItem server addRequest)
                    addMenuItem_fulfilled addMenuItem_rejected
                    "Failed to add menu item");
            ([updateRequest],
             report (putItem server updateRequest)
                    updateMenuItem_fulfilled updateMenuItem_rejected
                    "Failed to update menu item");
            ([deleteRequest],
             report (deleteItem server deleteRequest)
                    (fun _ => deleteMenuItem_fulfilled itemId) deleteMenuItem_rejected
                    "Failed to delete menu item") ]).
Proof.
  intros token server itemData itemId. split; [| split].
  - unfold allThunks, fetchCategories, fetchMenuItems, addMenuItem, updateMenuItem,
      deleteMenuItem.
    repeat (apply Forall_cons;
            [apply guarded_well_behaved; intros; reflexivity |]).
    apply Forall_nil.
  - intro Hu.
    assert (Ht : token = None \/ token = Some ""%string).
    { destruct token as [[|c r]|]; [right; reflexivity | discriminate Hu
                                   | left; reflexivity]. }
    unfold allThunks, fetchCategories, fetchMenuItems, addMenuItem, updateMenuItem,
      deleteMenuItem.
    rewrite !(guarded_without_token token) by exact Ht. reflexivity.
  - intros t Ht Htruthy auth categoriesRequest itemsRequest addRequest
           updateRequest deleteRequest.
    subst token.
    assert (Hreport : forall (A : Type) (answer : Result A) fulfilled rejected fallback,
               match answer with
               | Success data => fulfilled data
               | Failure detail => rejected (detail_or detail fallback)
               end = report answer fulfilled rejected fallback).
    { intros A [data | [d|]] fulfilled rejected fallback; reflexivity. }
    unfold allThunks, fetchCategories, fetchMenuItems, addMenuItem, updateMenuItem,
      deleteMenuItem.
    rewrite !guarded_with_token by exact Htruthy.
    rewrite !Hreport. reflexivity.
Qed.

Lemma thunks_need_token_witness :
  allThunks (Some ""%string) Samples.burger_server
            (mkItemData "Beef Burger" "" (Some 250) (Some 100) "c1"
                        (Some "Burgers"%string) true None) "1"
  = [ ([], fetchCategories_rejected "Failed to fetch categories");
      ([], fetchMenuItems_rejected "Failed to fetch menu items");
      ([], addMenuItem_rejected "Failed to add menu item");
      ([], updateMenuItem_rejected "Failed to update menu item");
      ([], deleteMenuItem_rejected "Failed to delete menu item") ].
Proof.
  apply (proj1 (proj2 (thunks_need_token (Some ""%string) Samples.burger_server
                  (mkItemData "Beef Burger" "" (Some 250) (Some 100) "c1"
                              (Some "Burgers"%string) true None) "1"))).
  reflexivity.
Defined.

Import MenuPage.

(** X16. Submitting the menu dialog.  In add mode without a token nothing
    is sent, the error is reported on the console, the dialog stays open
    with its form, the items are as before and the store holds the
    fallback message.  With a token, an accepted save closes the dialog and
    appends the answered item; a refused one leaves the dialog open with
    its form, the items as before and the reported message in the store.
    In edit mode with no current item nothing is sent and the dialog
    closes. *)
Theorem handleSubmit_saves_or_stays :
  forall (parseFloat parseInt : string -> option Q)
         (token : option string) (server : Server)
         (st : MenuPage.State) (state : MenuState),
    let out := MenuPage.handleSubmit parseFloat parseInt token server st state in
    let sent t :=
      mkRequest POST "/api/v1/menu/items" ("Bearer " ++ t)
                (Some (MenuPage.newItem parseFloat parseInt (categories state) (form st))) in
    (dialogMode st = MenuPage.add ->
     token = None \/ token = Some ""%string ->
     requests out = []
     /\ console_error out = true
     /\ page out = st
     /\ items (store out) = items state
     /\ error (store out) = Some "Failed to add menu item"%string)
    /\ (forall t data,
          dialogMode st = MenuPage.add ->
          token = Some t -> JS.truthy t = true ->
          postItem server (sent t) = Success data ->
          requests out = [sent t]
          /\ console_error out = false
          /\ page out = MenuPage.handleCloseDialog st
          /\ items (store out) = items state ++ [data]
          /\ categories (store out) = categories state
          /\ error (store out) = error state)
    /\ (forall t detail,
          dialogMode st = MenuPage.add ->
          token = Some t -> JS.truthy t = true ->
          postItem server (sent t) = Failure detail ->
          console_error out = true
          /\ page out = st
          /\ items (store out) = items state
          /\ error (store out) = Some (detail_or detail "Failed to add menu item"))
    /\ (dialogMode st = MenuPage.edit ->
        currentItem st = None ->
        out = mkOutcome [] false (MenuPage.handleCloseDialog st) state).
Proof.
  intros parseFloat parseInt token server st state out sent.
  subst out. unfold MenuPage.handleSubmit.
  split; [| split; [| split]].
  - intros Hm Ht. rewrite Hm. unfold addMenuItem.
    rewrite (guarded_without_token token) by exact Ht.
    unfold afterDispatch. cbn [snd fst isRejected]. cbn.
    repeat split.
  - intros t data Hm Ht Htruthy Hs. rewrite Hm. subst token. unfold addMenuItem.
    rewrite guarded_with_token by exact Htruthy.
    fold (sent t). rewrite Hs.
    unfold afterDispatch. cbn [snd fst isRejected]. cbn [requests console_error page store].
    repeat split.
  - intros t detail Hm Ht Htruthy Hs. rewrite Hm. subst token. unfold addMenuItem.
    rewrite guarded_with_token by exact Htruthy.
    fold (sent t). rewrite Hs.
    unfold afterDispatch. cbn [snd fst isRejected]. cbn [requests console_error page store].
    repeat split.
  - intros Hm Hc. rewrite Hm, Hc. reflexivity.
Qed.

Lemma handleSubmit_saves_or_stays_witness :
  page (MenuPage.handleSubmit Inventory.parseDigits Inventory.parseDigits None
          Samples.burger_server Samples.adding_burger Menu.initialState)
  = Samples.adding_burger
  /\ items (store (MenuPage.handleSubmit Inventory.parseDigits Inventory.parseDigits
                     (Some "abc"%string) Samples.burger_server
                     Samples.adding_burger Menu.initialState))
     = items Menu.initialState ++ [Samples.burger_250_100].
Proof.
  split.
  - apply (proj1 (handleSubmit_saves_or_stays Inventory.parseDigits Inventory.parseDigits
                    None Samples.burger_server Samples.adding_burger Menu.initialState)
                 eq_refl (or_introl eq_refl)).
  - apply (proj1 (proj2 (handleSubmit_saves_or_stays
                    Inventory.parseDigits Inventory.parseDigits
                    (Some "abc"%string) Samples.burger_server
                    Samples.adding_burger Menu.initialState))
                 "abc"%string Samples.burger_250_100 eq_refl eq_refl eq_refl eq_refl).
Defined.



End MenuSaving.
